(** * Library Management System: the DatabaseManager of project.py

    A shallow embedding of class [DatabaseManager] (project.py, lines 12-94)
    together with the part of the sqlite3 engine its five SQL statements
    exercise, and the properties of the catalog store proved over it.

    The Python methods are state transformers over one database file and one
    connection; an exception raised by sqlite3 is an outcome of its own, so
    that [try: ... except sqlite3.Error: return False] is a combinator. *)

From Stdlib Require Import String Ascii List Bool Arith ZArith Lia.
From Stdlib Require Import Decimal DecimalString DecimalZ.
Import ListNotations.
Local Open Scope string_scope.
Local Open Scope list_scope.

(** ** The [books] table *)

(** A value bound to a [?] placeholder or read back from a column. Every
    column of [books] is declared TEXT, and the program only ever binds
    [str] objects; [None] is SQL NULL. *)
Inductive value : Type :=
| VNull
| VText (s : string).

(** One row of [books (title, author, isbn, genre, pub_year)], i.e. one
    tuple of [fetchall()]. *)
Record row : Type := mk_row {
  title : value;
  author : value;
  isbn : value;
  genre : value;
  pub_year : value
}.

(** The rows of the table in rowid order, which is the order [SELECT *]
    scans them in; an INSERT takes the next rowid, so it appends. *)
Definition table : Type := list row.

Definition is_null (v : value) : bool :=
  match v with VNull => true | VText _ => false end.

(** [isbn = ?] on a TEXT column with the BINARY collation: byte equality;
    a NULL isbn equals nothing. *)
Definition isbn_is (k : string) (r : row) : bool :=
  match isbn r with
  | VText k' => String.eqb k' k
  | VNull => false
  end.

Definition has_isbn (k : string) (t : table) : bool := existsb (isbn_is k) t.

(** ** Stores, outcomes and the exception-passing state monad *)

(** [file] is the committed content of the database file ([None]: the
    [books] table does not exist yet); [txn] is the working copy of the
    transaction the connection has open, if any. *)
Record store : Type := mk_store {
  file : option table;
  txn : option table
}.

(** What the connection sees: its own uncommitted changes first. *)
Definition view (s : store) : option table :=
  match txn s with
  | Some t => Some t
  | None => file s
  end.

(** The subclasses of [sqlite3.Error] the five statements can raise. *)
Inductive sqlite_error : Type :=
| IntegrityError
| ProgrammingError
| OperationalError.

Inductive outcome (A : Type) : Type :=
| Ret (a : A)
| Raise (e : sqlite_error).
Arguments Ret {A} a.
Arguments Raise {A} e.

Definition M (A : Type) : Type := store -> outcome A * store.

Definition ret {A} (a : A) : M A := fun s => (Ret a, s).

Definition raise {A} (e : sqlite_error) : M A := fun s => (Raise e, s).

Definition bind {A B} (m : M A) (k : A -> M B) : M B :=
  fun s =>
    match m s with
    | (Ret a, s') => k a s'
    | (Raise e, s') => (Raise e, s')
    end.

(** [try: body  except sqlite3.Error: handler]. The state the handler
    starts from is the one the failed body left. *)
Definition try_except {A} (body handler : M A) : M A :=
  fun s =>
    match body s with
    | (Ret a, s') => (Ret a, s')
    | (Raise _, s') => handler s'
    end.

Declare Scope py_scope.
Delimit Scope py_scope with py.
Notation "x <- m ;; k" := (bind m (fun x => k))
  (at level 61, m at next level, right associativity) : py_scope.
Notation "m ;; k" := (bind m (fun _ => k))
  (at level 61, right associativity) : py_scope.
Local Open Scope py_scope.

(** ** The sqlite3 primitives the class calls *)

Module Sqlite3.

(** [sqlite3.connect(db_name)] followed by [conn.cursor()]: a new
    connection on the same file. The connection it replaces is dropped,
    and with it whatever that connection had not committed. A [store] is
    a path that opens as a database; on any other path [connect] or the
    first statement raises, and no property below says it does not. *)
Definition connect : M unit :=
  fun s => (Ret tt, mk_store (file s) None).

(** [conn.commit()] when the file is free: the working copy becomes the
    file's content. The commit that a lock on the file refuses is
    [commit_when] below. *)
Definition commit : M unit :=
  fun s => (Ret tt, mk_store (view s) None).

(** The implicit BEGIN the module issues before INSERT and DELETE when no
    transaction is open. *)
Definition begin (s : store) : store :=
  match txn s with
  | Some _ => s
  | None => mk_store (file s) (file s)
  end.

(** [CREATE TABLE IF NOT EXISTS books (...)]: data definition runs
    outside the implicit transactions. *)
Definition execute_create_table : M unit :=
  fun s =>
    match view s with
    | Some _ => (Ret tt, s)
    | None => (Ret tt, mk_store (Some []) (txn s))
    end.

(** The checks of [INSERT INTO books VALUES (?, ?, ?, ?, ?)] on one tuple
    of parameters: five bindings, [title] and [author] NOT NULL, [isbn]
    PRIMARY KEY (as for every rowid table, NULL keys are not compared). *)
Definition check_insert (t : table) (params : list value) : sqlite_error + row :=
  match params with
  | [vt; va; vi; vg; vy] =>
      if is_null vt || is_null va then inl IntegrityError
      else
        match vi with
        | VText k =>
            if has_isbn k t then inl IntegrityError
            else inr (mk_row vt va vi vg vy)
        | VNull => inr (mk_row vt va vi vg vy)
        end
  | _ => inl ProgrammingError
  end.

(** One step of an INSERT inside the open transaction: a failing statement
    changes nothing. *)
Definition insert_step (params : list value) : M unit :=
  fun s =>
    match view s with
    | None => (Raise OperationalError, s)
    | Some t =>
        match check_insert t params with
        | inl e => (Raise e, s)
        | inr r => (Ret tt, mk_store (file s) (Some (t ++ [r])))
        end
    end.

(** [cursor.execute('INSERT INTO books VALUES (?, ?, ?, ?, ?)', params)].
    Without the table the statement does not compile and nothing begins. *)
Definition execute_insert (params : list value) : M unit :=
  fun s =>
    match view s with
    | None => (Raise OperationalError, s)
    | Some _ => insert_step params (begin s)
    end.

Fixpoint insert_steps (seq_of_params : list (list value)) : M unit :=
  match seq_of_params with
  | [] => ret tt
  | params :: rest => insert_step params ;; insert_steps rest
  end.

(** [cursor.executemany('INSERT INTO books VALUES (?, ?, ?, ?, ?)', seq)]:
    one BEGIN, then the statement once per tuple, in order, stopping at
    the first tuple that raises. *)
Definition executemany_insert (seq_of_params : list (list value)) : M unit :=
  fun s =>
    match view s with
    | None => (Raise OperationalError, s)
    | Some _ => insert_steps seq_of_params (begin s)
    end.

(** One DELETE inside the open transaction: every row whose isbn equals
    the parameter goes; matching no row is not an error. *)
Definition delete_step (k : string) : M unit :=
  fun s =>
    match view s with
    | None => (Raise OperationalError, s)
    | Some t =>
        (Ret tt, mk_store (file s)
                          (Some (filter (fun r => negb (isbn_is k r)) t)))
    end.

(** [cursor.execute('DELETE FROM books WHERE isbn = ?', (isbn,))]. *)
Definition execute_delete (k : string) : M unit :=
  fun s =>
    match view s with
    | None => (Raise OperationalError, s)
    | Some _ => delete_step k (begin s)
    end.

(** [cursor.execute('SELECT * FROM books')] and [cursor.fetchall()]. *)
Definition execute_select_all : M table :=
  fun s =>
    match view s with
    | None => (Raise OperationalError, s)
    | Some t => (Ret t, s)
    end.

End Sqlite3.

(** ** class DatabaseManager *)

(** [connect] (lines 20-22). *)
Definition connect : M unit := Sqlite3.connect.

(** [create_tables] (lines 24-34). *)
Definition create_tables : M unit :=
  Sqlite3.execute_create_table ;;
  Sqlite3.commit.

(** [__init__] (lines 13-18). *)
Definition init : M unit :=
  connect ;;
  create_tables.

(** [add_book] (lines 36-45). *)
Definition add_book (book_data : list value) : M bool :=
  try_except
    (Sqlite3.execute_insert book_data ;;
     Sqlite3.commit ;;
     ret true)
    (ret false).

(** [get_all_books] (lines 47-49). *)
Definition get_all_books : M table := Sqlite3.execute_select_all.

(** [delete_book] (lines 51-57). *)
Definition delete_book (k : string) : M bool :=
  try_except
    (Sqlite3.execute_delete k ;;
     Sqlite3.commit ;;
     ret true)
    (ret false).

(** *** A commit that is refused *)

(** [conn.commit()] while another connection may be reading the file:
    as long as that one holds its lock ([locked]), the commit raises
    OperationalError (database is locked) and the transaction stays open,
    its changes neither committed nor undone. *)
Definition commit_when (locked : bool) : M unit :=
  if locked then raise OperationalError else Sqlite3.commit.

(** [add_book] (lines 36-45) with that commit: the [except] branch
    returns [False] and rolls nothing back. [add_book] above is
    [add_book_when false]. *)
Definition add_book_when (locked : bool) (book_data : list value) : M bool :=
  try_except
    (Sqlite3.execute_insert book_data ;;
     commit_when locked ;;
     ret true)
    (ret false).

(** *** Sample data *)

(** The outcomes of the successive calls into [random], as a tape: call
    number [i] is decided by [g i], reduced into the range the call asks
    for. Every tape gives outcomes in range, and every sequence of
    outcomes in range is given by some tape. *)
Definition rng : Type := nat -> nat.

Definition draw (g : rng) : nat * rng := (g 0%nat, fun i => g (S i)).

(** [random.choice(seq)]. *)
Definition choice (seq : list string) (g : rng) : string * rng :=
  let '(n, g') := draw g in
  (nth (n mod length seq) seq "", g').

(** [random.randint(a, b)]: an integer of [a .. b], both ends included. *)
Definition randint (a b : Z) (g : rng) : Z * rng :=
  let '(n, g') := draw g in
  ((a + Z.of_nat n mod (b - a + 1))%Z, g').

(** [str(n)] on an [int]. *)
Definition str (n : Z) : string := NilEmpty.string_of_int (Z.to_int n).

(** [int(s)] on the decimal strings [str] writes. *)
Definition read_int (s : string) : option Z :=
  option_map Z.of_int (NilEmpty.int_of_string s).

Definition titles : list string :=
  [ "The Art of Programming"; "Digital Fortress"; "The Silent Patient";
    "The Midnight Library"; "Atomic Habits"; "Deep Learning Basics";
    "Python Mastery"; "Data Science 101"; "Web Development Guide";
    "Artificial Intelligence" ].

Definition authors : list string :=
  [ "John Smith"; "Emma Wilson"; "Michael Brown"; "Sarah Davis";
    "James Johnson"; "Robert Martin"; "David Miller"; "Lisa Anderson" ].

Definition genres : list string :=
  [ "Programming"; "Technology"; "Computer Science"; "Software Development";
    "Data Science"; "Web Development"; "Artificial Intelligence" ].

(** [''.join([str(random.randint(0, 9)) for _ in range(n)])]. *)
Fixpoint random_digits (n : nat) (g : rng) : string * rng :=
  match n with
  | O => ("", g)
  | S n' =>
      let '(d, g1) := randint 0 9 g in
      let '(ds, g2) := random_digits n' g1 in
      (String.append (str d) ds, g2)
  end.

(** The body of the loop (lines 86-92): one tuple. *)
Definition sample_book (current_year : Z) (g : rng) : list value * rng :=
  let '(t, g) := choice titles g in
  let '(n, g) := randint 1 5 g in
  let '(a, g) := choice authors g in
  let '(i, g) := random_digits 10 g in
  let '(ge, g) := choice genres g in
  let '(y, g) := randint (current_year - 20) current_year g in
  ([ VText (String.append t (String.append " " (str n)));
     VText a; VText i; VText ge; VText (str y) ], g).

(** [for _ in range(n): ... books.append(...)]. *)
Fixpoint sample_books (n : nat) (current_year : Z) (g : rng) : list (list value) :=
  match n with
  | O => []
  | S n' =>
      let '(b, g') := sample_book current_year g in
      b :: sample_books n' current_year g'
  end.

(** [_generate_sample_data] (lines 64-94); [current_year] is
    [datetime.now().year]. *)
Definition _generate_sample_data (current_year : Z) (g : rng) : list (list value) :=
  sample_books 50 current_year g.

(** Lines 61-62: what [add_sample_books] does with the generated list. *)
Definition insert_many (sample_data : list (list value)) : M unit :=
  Sqlite3.executemany_insert sample_data ;;
  Sqlite3.commit.

(** [add_sample_books] (lines 59-62). *)
Definition add_sample_books (current_year : Z) (g : rng) : M unit :=
  insert_many (_generate_sample_data current_year g).

(** ** Reading a run *)

(** A location nothing was ever stored at. *)
Definition fresh : store := mk_store None None.

(** The store [DatabaseManager()] leaves at a fresh location. *)
Definition empty_store : store := snd (init fresh).

Definition result {A} (r : outcome A * store) : outcome A := fst r.
Definition after {A} (r : outcome A * store) : store := snd r.

(** What [get_all_books] returns in state [s]. *)
Definition list_all (s : store) : outcome table := result (get_all_books s).

Definition text_row (t a i g y : string) : row :=
  mk_row (VText t) (VText a) (VText i) (VText g) (VText y).

(** ** Vocabulary of the properties *)

(** The rows committed at the location, none when there is no table. *)
Definition stored (s : store) : table :=
  match file s with
  | Some t => t
  | None => []
  end.

(** The tuple [fetchall()] hands back for a row. *)
Definition row_tuple (r : row) : list value :=
  [title r; author r; isbn r; genre r; pub_year r].

(** No uncommitted change is pending on the connection. *)
Definition settled (s : store) : Prop := txn s = None \/ txn s = file s.

Definition is_digit (c : ascii) : bool :=
  (48 <=? nat_of_ascii c)%nat && (nat_of_ascii c <=? 57)%nat.

Fixpoint all_digits (s : string) : bool :=
  match s with
  | EmptyString => true
  | String c s' => is_digit c && all_digits s'
  end.

(** The isbn a tuple of parameters supplies (its third component). *)
Definition tuple_isbn (b : list value) : value := nth 2 b VNull.

(** The shape of a generated tuple: five strings, the isbn made of ten
    decimal digits, the year reading as a number of [current_year - 20 ..
    current_year]. *)
Definition sample_ok (current_year : Z) (b : list value) : Prop :=
  exists t a i ge y n,
    b = [VText t; VText a; VText i; VText ge; VText y] /\
    String.length i = 10%nat /\
    all_digits i = true /\
    read_int y = Some n /\
    (current_year - 20 <= n <= current_year)%Z.

Definition value_eqb (v w : value) : bool :=
  match v, w with
  | VNull, VNull => true
  | VText a, VText b => String.eqb a b
  | _, _ => false
  end.

Fixpoint distinct_values (l : list value) : bool :=
  match l with
  | [] => true
  | v :: l' => negb (existsb (value_eqb v) l') && distinct_values l'
  end.

(** A tape on which record number [j] gets the isbn [00000000jj]. *)
Definition counting_tape : rng :=
  fun i => if (i mod 15 =? 11)%nat then (i / 150)%nat
           else if (i mod 15 =? 12)%nat then (i / 15)%nat
           else 0%nat.

(** The calls a client can make on the store. [InsertMany] is the bulk
    insertion of lines 61-62 on any list of tuples, [AddSampleBooks] the
    method itself on the fifty tuples it generates. *)
Inductive op : Type :=
| Initialize
| Insert (book_data : list value)
| InsertMany (sample_data : list (list value))
| AddSampleBooks (current_year : Z) (g : rng)
| Delete (k : string).

(** The store a call leaves, whether it returned or raised. *)
Definition step (s : store) (o : op) : store :=
  match o with
  | Initialize => after (init s)
  | Insert book_data => after (add_book book_data s)
  | InsertMany sample_data => after (insert_many sample_data s)
  | AddSampleBooks current_year g => after (add_sample_books current_year g s)
  | Delete k => after (delete_book k s)
  end.

Definition run (ops : list op) (s : store) : store := fold_left step ops s.

(** The tuple supplies an isbn, as the data model requires: its third
    component is not [None]. *)
Definition supplies_isbn (b : list value) : Prop := nth_error b 2 <> Some VNull.

Definition well_keyed (o : op) : Prop :=
  match o with
  | Insert book_data => supplies_isbn book_data
  | InsertMany sample_data => Forall supplies_isbn sample_data
  | _ => True
  end.

(** Every row has an isbn and no two rows share one. *)
Definition keys_unique (t : table) : Prop :=
  NoDup (map isbn t) /\ Forall (fun r => isbn r <> VNull) t.

Definition store_inv (s : store) : Prop :=
  (forall t, file s = Some t -> keys_unique t) /\
  (forall t, txn s = Some t -> keys_unique t).

(** The tuples of [batch] are accepted one after the other by a table
    that starts as [t], and [rows] are the rows they become. *)
Fixpoint accepted (t : table) (batch : list (list value)) (rows : list row) : Prop :=
  match batch, rows with
  | [], [] => True
  | params :: batch', r :: rows' =>
      Sqlite3.check_insert t params = inr r /\ accepted (t ++ [r]) batch' rows'
  | _, _ => False
  end.

(** The same call to [add_book], [n] times in a row. *)
Definition add_book_times (n : nat) (book_data : list value) (s : store) : store :=
  Nat.iter n (fun s' => after (add_book book_data s')) s.

(** ** class LibraryManagementSystem *)

(** The five [QLineEdit] of [self.inputs], by the text each holds. *)
Record form : Type := mk_form {
  title_text : string;
  author_text : string;
  isbn_text : string;
  genre_text : string;
  year_text : string
}.

(** The part of the window the methods read and write: the database
    manager [self.db], the input fields, and the items of [self.table],
    row by row, each by its text. *)
Record window : Type := mk_window {
  db : store;
  inputs : form;
  cells : list (list string)
}.

(** What a slot can raise: an error of sqlite3 that the manager let
    through, or AttributeError when [item()] returned [None]. *)
Inductive py_error : Type :=
| SqliteError (e : sqlite_error)
| AttributeError.

Inductive ui_outcome (A : Type) : Type :=
| UiRet (a : A)
| UiRaise (e : py_error).
Arguments UiRet {A} a.
Arguments UiRaise {A} e.

Definition W (A : Type) : Type := window -> ui_outcome A * window.

Definition ui_ret {A} (a : A) : W A := fun w => (UiRet a, w).

Definition ui_bind {A B} (m : W A) (k : A -> W B) : W B :=
  fun w =>
    match m w with
    | (UiRet a, w') => k a w'
    | (UiRaise e, w') => (UiRaise e, w')
    end.

(** A call on [self.db]. *)
Definition on_db {A} (m : M A) : W A :=
  fun w =>
    match m (db w) with
    | (Ret a, d) => (UiRet a, mk_window d (inputs w) (cells w))
    | (Raise e, d) => (UiRaise (SqliteError e), mk_window d (inputs w) (cells w))
    end.

Declare Scope ui_scope.
Delimit Scope ui_scope with ui.
Notation "x <- m ;; k" := (ui_bind m (fun x => k))
  (at level 61, m at next level, right associativity) : ui_scope.
Notation "m ;; k" := (ui_bind m (fun _ => k))
  (at level 61, right associativity) : ui_scope.

(** [str(value)] on what a column holds. *)
Definition py_str (v : value) : string :=
  match v with
  | VNull => "None"
  | VText s => s
  end.

(** The texts [load_books] puts in the table for a list of books. *)
Definition render (books : table) : list (list string) :=
  map (fun book => map py_str (row_tuple book)) books.

(** [needle in hay] on two [str]. *)
Fixpoint contains (needle hay : string) : bool :=
  String.prefix needle hay ||
  match hay with
  | EmptyString => false
  | String _ hay' => contains needle hay'
  end.

Module LibraryManagementSystem.

(** [self.table.item(row, col).text()]; [item] gives [None] where the
    table has no item. *)
Definition item_text (row : Z) (col : nat) : W string :=
  fun w =>
    match nth_error (cells w) (Z.to_nat row) with
    | Some r =>
        match nth_error r col with
        | Some text => (UiRet text, w)
        | None => (UiRaise AttributeError, w)
        end
    | None => (UiRaise AttributeError, w)
    end.

(** [clear_fields] (lines 270-272). *)
Definition clear_fields : W unit :=
  fun w => (UiRet tt, mk_window (db w) (mk_form "" "" "" "" "") (cells w)).

(** [load_books] (lines 274-279). *)
Definition load_books : W unit :=
  (books <- on_db get_all_books ;;
   fun w => (UiRet tt, mk_window (db w) (inputs w) (render books)))%ui.

(** [add_book] (lines 257-268). *)
Definition add_book : W unit :=
  fun w =>
    let book_data :=
      [ VText (title_text (inputs w)); VText (author_text (inputs w));
        VText (isbn_text (inputs w)); VText (genre_text (inputs w));
        VText (year_text (inputs w)) ] in
    (ok <- on_db (add_book book_data) ;;
     if ok : bool then load_books ;; clear_fields else ui_ret tt)%ui w.

(** [search_books] (lines 281-290), by the flags it passes to
    [setRowHidden], one per row. [lower] is [str.lower]. *)
Definition search_books (lower : string -> string) (search_input : string)
    (w : window) : list bool :=
  let search_text := lower search_input in
  map (fun r => negb (existsb (fun text => contains search_text (lower text)) r))
      (cells w).

(** [delete_book] (lines 292-297); [current_row] is what
    [self.table.currentRow()] returns, [-1] when no row is current. *)
Definition delete_book (current_row : Z) : W unit :=
  (if (0 <=? current_row)%Z then
     k <- item_text current_row 2 ;;
     ok <- on_db (delete_book k) ;;
     if ok : bool then load_books else ui_ret tt
   else ui_ret tt)%ui.

(** [add_sample_books] (lines 299-301). *)
Definition add_sample_books (current_year : Z) (g : rng) : W unit :=
  (on_db (add_sample_books current_year g) ;;
   load_books)%ui.

(** [__init__] (lines 97-101) with [init_ui] (lines 159-175), on the
    database file as [location] has it: the manager is made, the fields
    are empty, and [load_books] fills the table. *)
Definition init (location : store) : ui_outcome unit * window :=
  (on_db init ;; load_books)%ui (mk_window location (mk_form "" "" "" "" "") []).

End LibraryManagementSystem.

(** What the user does to the window: type into the fields, then press a
    button; for Delete, [current_row] is the row that is current then. *)
Inductive action : Type :=
| TypeIn (f : form)
| PressAdd
| PressClear
| PressDelete (current_row : Z)
| PressAddSamples (current_year : Z) (g : rng).

Definition act (a : action) : W unit :=
  match a with
  | TypeIn f => fun w => (UiRet tt, mk_window (db w) f (cells w))
  | PressAdd => LibraryManagementSystem.add_book
  | PressClear => LibraryManagementSystem.clear_fields
  | PressDelete current_row => LibraryManagementSystem.delete_book current_row
  | PressAddSamples current_year g =>
      LibraryManagementSystem.add_sample_books current_year g
  end.

(** The window after a series of actions, as long as none raised. *)
Fixpoint use (acts : list action) (w : window) : option window :=
  match acts with
  | [] => Some w
  | a :: acts' =>
      match act a w with
      | (UiRet _, w') => use acts' w'
      | (UiRaise _, _) => None
      end
  end.

(** The table shows, row for row, what [get_all_books] returns. *)
Definition shows_listing (w : window) : Prop :=
  exists t, list_all (db w) = Ret t /\ cells w = render t.

(** [str.lower] on ASCII text. *)
Definition ascii_lower_char (c : ascii) : ascii :=
  let n := nat_of_ascii c in
  if ((65 <=? n) && (n <=? 90))%nat then ascii_of_nat (n + 32) else c.

Fixpoint ascii_lower (s : string) : string :=
  match s with
  | EmptyString => EmptyString
  | String c s' => String (ascii_lower_char c) (ascii_lower s')
  end.

(** ** What each method computes *)

Example scenario_of_the_spec :
  let dune := [VText "Dune"; VText "Frank Herbert"; VText "1234567890";
               VText "Sci-Fi"; VText "1965"] in
  let s1 := after (add_book dune empty_store) in
  let s2 := after (delete_book "1234567890" s1) in
  result (add_book dune empty_store) = Ret true /\
  list_all s1 = Ret [text_row "Dune" "Frank Herbert" "1234567890" "Sci-Fi" "1965"] /\
  result (delete_book "1234567890" s1) = Ret true /\
  list_all s2 = Ret [].
Proof. repeat split. Qed.

Lemma view_begin (s : store) : view (Sqlite3.begin s) = view s.
Proof.
  unfold Sqlite3.begin, view.
  destruct (txn s) eqn:E; simpl; [now rewrite E | now destruct (file s)].
Qed.

Lemma file_begin (s : store) : file (Sqlite3.begin s) = file s.
Proof. unfold Sqlite3.begin. now destruct (txn s). Qed.

Lemma txn_begin (s : store) (t : table) :
  view s = Some t -> txn (Sqlite3.begin s) = Some t.
Proof.
  unfold Sqlite3.begin, view.
  destruct (txn s) eqn:E; simpl; congruence.
Qed.

(** [add_book] in one step: without the table or with a rejected tuple it
    answers [False] and changes no row; otherwise it appends the row made
    of the five parameters and commits. *)
Lemma add_book_eq (book_data : list value) (s : store) :
  add_book book_data s =
  match view s with
  | None => (Ret false, s)
  | Some t =>
      match Sqlite3.check_insert t book_data with
      | inl _ => (Ret false, Sqlite3.begin s)
      | inr r => (Ret true, mk_store (Some (t ++ [r])) None)
      end
  end.
Proof.
  unfold add_book, try_except, bind, Sqlite3.execute_insert, Sqlite3.insert_step.
  destruct (view s) as [t|] eqn:V; [|reflexivity].
  rewrite view_begin, V.
  destruct (Sqlite3.check_insert t book_data); reflexivity.
Qed.

Lemma delete_book_eq (k : string) (s : store) :
  delete_book k s =
  match view s with
  | None => (Ret false, s)
  | Some t => (Ret true, mk_store (Some (filter (fun r => negb (isbn_is k r)) t)) None)
  end.
Proof.
  unfold delete_book, try_except, bind, Sqlite3.execute_delete, Sqlite3.delete_step.
  destruct (view s) as [t|] eqn:V; [|reflexivity].
  rewrite view_begin, V. reflexivity.
Qed.

Lemma init_eq (s : store) : init s = (Ret tt, mk_store (Some (stored s)) None).
Proof.
  unfold init, create_tables, connect, bind, stored,
    Sqlite3.connect, Sqlite3.execute_create_table, Sqlite3.commit, view.
  simpl. destruct (file s); reflexivity.
Qed.

Lemma list_all_eq (s : store) :
  list_all s = match view s with Some t => Ret t | None => Raise OperationalError end.
Proof.
  unfold list_all, result, get_all_books, Sqlite3.execute_select_all.
  now destruct (view s).
Qed.

Lemma list_all_view (s : store) (t : table) : list_all s = Ret t <-> view s = Some t.
Proof.
  rewrite list_all_eq. destruct (view s); split; intros H; congruence.
Qed.

(** [get_all_books] only reads. *)
Lemma get_all_books_read_only (s : store) : after (get_all_books s) = s.
Proof.
  unfold after, get_all_books, Sqlite3.execute_select_all.
  now destruct (view s).
Qed.

(** *** Keys *)

Lemma isbn_is_true (k : string) (r : row) : isbn_is k r = true <-> isbn r = VText k.
Proof.
  unfold isbn_is. destruct (isbn r) as [|k']; split; intros H; try discriminate.
  - apply String.eqb_eq in H. now subst.
  - injection H as ->. apply String.eqb_refl.
Qed.

Lemma has_isbn_true (k : string) (t : table) :
  has_isbn k t = true <-> exists r, In r t /\ isbn r = VText k.
Proof.
  unfold has_isbn. rewrite existsb_exists.
  split; intros [r [Hin H]]; exists r; split; auto; now apply isbn_is_true.
Qed.

Lemma has_isbn_false (k : string) (t : table) :
  has_isbn k t = false <-> (forall r, In r t -> isbn r <> VText k).
Proof.
  split.
  - intros H r Hin E.
    assert (has_isbn k t = true) by (apply has_isbn_true; eauto). congruence.
  - intros H. destruct (has_isbn k t) eqn:E; [|reflexivity].
    apply has_isbn_true in E as [r [Hin E]]. now elim (H r Hin).
Qed.

Lemma filter_absent_key (k : string) (t : table) :
  (forall r, In r t -> isbn r <> VText k) ->
  filter (fun r => negb (isbn_is k r)) t = t.
Proof.
  induction t as [|r t IH]; intros H; simpl; [reflexivity|].
  destruct (isbn_is k r) eqn:E.
  - apply isbn_is_true in E. elim (H r (or_introl eq_refl) E).
  - simpl. f_equal. apply IH. intros r' Hin. apply H. now right.
Qed.

(** ** Insertion *)

(** A rejected tuple leaves the rows the connection sees, and the rows
    committed to the file, as they were. *)
Lemma add_book_false_unchanged (book_data : list value) (s : store) :
  result (add_book book_data s) = Ret false ->
  view (after (add_book book_data s)) = view s /\
  file (after (add_book book_data s)) = file s.
Proof.
  rewrite add_book_eq. unfold result, after.
  destruct (view s) as [t|] eqn:V; simpl; [|now rewrite V].
  destruct (Sqlite3.check_insert t book_data); simpl; intros H; [|discriminate].
  now rewrite view_begin, file_begin.
Qed.

Lemma check_insert_duplicate (t : table) (k : string) (vt va vg vy : value) :
  has_isbn k t = true ->
  exists e, Sqlite3.check_insert t [vt; va; VText k; vg; vy] = inl e.
Proof.
  intros H. unfold Sqlite3.check_insert. rewrite H.
  destruct (is_null vt || is_null va); eauto.
Qed.

(** C1. When the store holds a record with isbn [k], [add_book] on any
    tuple whose isbn is [k], whatever its other four fields, returns
    [False], and [get_all_books] afterwards returns the very list it
    returned before: the first record for [k] is there with its values and
    no second one is. *)
Theorem add_book_duplicate_isbn_fails
    (s : store) (t : table) (r : row) (k : string) (vt va vg vy : value) :
  list_all s = Ret t ->
  In r t ->
  isbn r = VText k ->
  let s' := after (add_book [vt; va; VText k; vg; vy] s) in
  result (add_book [vt; va; VText k; vg; vy] s) = Ret false /\
  list_all s' = Ret t /\
  file s' = file s.
Proof.
  intros L Hin Hk s'.
  apply list_all_view in L.
  assert (D : has_isbn k t = true) by (apply has_isbn_true; eauto).
  destruct (check_insert_duplicate t k vt va vg vy D) as [e Ce].
  assert (R : result (add_book [vt; va; VText k; vg; vy] s) = Ret false).
  { rewrite add_book_eq, L, Ce. reflexivity. }
  destruct (add_book_false_unchanged _ _ R) as [Hv Hf].
  repeat split; auto.
  apply list_all_view. subst s'. congruence.
Qed.

Lemma add_book_duplicate_isbn_fails_witness :
  let s := after (add_book [VText "Dune"; VText "Frank Herbert"; VText "1234567890";
                            VText "Sci-Fi"; VText "1965"] empty_store) in
  let other := [VText "Emma"; VText "Jane Austen"; VText "1234567890";
                VNull; VText "1815"] in
  result (add_book other s) = Ret false /\
  list_all (after (add_book other s)) =
    Ret [text_row "Dune" "Frank Herbert" "1234567890" "Sci-Fi" "1965"] /\
  file (after (add_book other s)) = file s.
Proof.
  exact (add_book_duplicate_isbn_fails
           (after (add_book [VText "Dune"; VText "Frank Herbert"; VText "1234567890";
                             VText "Sci-Fi"; VText "1965"] empty_store))
           [text_row "Dune" "Frank Herbert" "1234567890" "Sci-Fi" "1965"]
           (text_row "Dune" "Frank Herbert" "1234567890" "Sci-Fi" "1965")
           "1234567890" (VText "Emma") (VText "Jane Austen") VNull (VText "1815")
           eq_refl (or_introl eq_refl) eq_refl).
Defined.

(** C3. Whenever [add_book] succeeds on a tuple, the tuple had five
    fields, and [get_all_books] afterwards returns the former rows followed
    by one row holding exactly the five values supplied; that list is also
    what the file then holds. *)
Theorem add_book_round_trip (s : store) (book_data : list value) :
  result (add_book book_data s) = Ret true ->
  exists vt va vi vg vy t,
    book_data = [vt; va; vi; vg; vy] /\
    list_all s = Ret t /\
    list_all (after (add_book book_data s)) = Ret (t ++ [mk_row vt va vi vg vy]) /\
    In (mk_row vt va vi vg vy) (t ++ [mk_row vt va vi vg vy]) /\
    file (after (add_book book_data s)) = Some (t ++ [mk_row vt va vi vg vy]).
Proof.
  rewrite add_book_eq. unfold result, after.
  destruct (view s) as [t|] eqn:V; simpl; [|discriminate].
  destruct (Sqlite3.check_insert t book_data) as [e|r] eqn:C; simpl; [discriminate|].
  intros _.
  assert (E : exists vt va vi vg vy,
             book_data = [vt; va; vi; vg; vy] /\ r = mk_row vt va vi vg vy).
  { unfold Sqlite3.check_insert in C.
    destruct book_data as [|vt [|va [|vi [|vg [|vy [|x l]]]]]]; try discriminate.
    exists vt, va, vi, vg, vy. split; [reflexivity|].
    destruct (is_null vt || is_null va); [discriminate|].
    destruct vi as [|k]; [congruence|].
    destruct (has_isbn k t); congruence. }
  destruct E as (vt & va & vi & vg & vy & -> & ->).
  exists vt, va, vi, vg, vy, t. repeat split.
  - now apply list_all_view.
  - apply in_or_app. right. now left.
Qed.

Lemma add_book_round_trip_witness :
  exists vt va vi vg vy t,
    [VText "Dune"; VText "Frank Herbert"; VText "1234567890"; VText "Sci-Fi"; VText "1965"]
      = [vt; va; vi; vg; vy] /\
    list_all empty_store = Ret t /\
    list_all (after (add_book [VText "Dune"; VText "Frank Herbert"; VText "1234567890";
                               VText "Sci-Fi"; VText "1965"] empty_store))
      = Ret (t ++ [mk_row vt va vi vg vy]) /\
    In (mk_row vt va vi vg vy) (t ++ [mk_row vt va vi vg vy]) /\
    file (after (add_book [VText "Dune"; VText "Frank Herbert"; VText "1234567890";
                           VText "Sci-Fi"; VText "1965"] empty_store))
      = Some (t ++ [mk_row vt va vi vg vy]).
Proof.
  exact (add_book_round_trip empty_store
           [VText "Dune"; VText "Frank Herbert"; VText "1234567890";
            VText "Sci-Fi"; VText "1965"] eq_refl).
Defined.

Lemma add_book_when_free (book_data : list value) (s : store) :
  add_book_when false book_data s = add_book book_data s.
Proof. reflexivity. Qed.

(** [add_book] with a commit that may be refused, in one step. *)
Lemma add_book_when_eq (locked : bool) (book_data : list value) (s : store) :
  add_book_when locked book_data s =
  match view s with
  | None => (Ret false, s)
  | Some t =>
      match Sqlite3.check_insert t book_data with
      | inl _ => (Ret false, Sqlite3.begin s)
      | inr r =>
          if locked then (Ret false, mk_store (file s) (Some (t ++ [r])))
          else (Ret true, mk_store (Some (t ++ [r])) None)
      end
  end.
Proof.
  unfold add_book_when, try_except, bind, Sqlite3.execute_insert, Sqlite3.insert_step.
  destruct (view s) as [t|] eqn:V; [|reflexivity].
  rewrite view_begin, V, file_begin.
  destruct (Sqlite3.check_insert t book_data); [reflexivity|].
  destruct locked; reflexivity.
Qed.

Lemma execute_insert_eq (book_data : list value) (s : store) :
  Sqlite3.execute_insert book_data s =
  match view s with
  | None => (Raise OperationalError, s)
  | Some t =>
      match Sqlite3.check_insert t book_data with
      | inl e => (Raise e, Sqlite3.begin s)
      | inr r => (Ret tt, mk_store (file s) (Some (t ++ [r])))
      end
  end.
Proof.
  unfold Sqlite3.execute_insert, Sqlite3.insert_step.
  destruct (view s) as [t|] eqn:V; [|reflexivity].
  rewrite view_begin, V, file_begin. reflexivity.
Qed.

(** C10, as stated, fails: on the store a fresh [DatabaseManager()]
    leaves, while a reader holds its lock on the file, the INSERT of a
    well-formed record is accepted, [commit] raises, [add_book] returns
    [False], and [get_all_books] then returns the record, which it did not
    before. *)
Lemma add_book_refused_commit_keeps_the_row :
  list_all empty_store = Ret [] /\
  result (add_book_when true [VText "Dune"; VText "Frank Herbert"; VText "1234567890";
                              VText "Sci-Fi"; VText "1965"] empty_store) = Ret false /\
  list_all (after (add_book_when true [VText "Dune"; VText "Frank Herbert";
                                       VText "1234567890"; VText "Sci-Fi"; VText "1965"]
                     empty_store))
    = Ret [text_row "Dune" "Frank Herbert" "1234567890" "Sci-Fi" "1965"].
Proof. repeat split. Qed.

(** C10, amended. Whenever [add_book] returns [False], the file is as it
    was: nothing of the call is committed. If it was the INSERT that
    raised (a missing table, a tuple that does not have five fields, a
    NULL title or author, an isbn already stored), [get_all_books] also
    returns after the call what it returned before it. Otherwise the
    INSERT was accepted and it was [commit] that raised, the file being
    locked: the handler rolls nothing back, and [get_all_books] on this
    connection returns the former records followed by the new one,
    uncommitted. *)
Theorem add_book_failure_keeps_the_file
    (locked : bool) (s : store) (book_data : list value) :
  result (add_book_when locked book_data s) = Ret false ->
  let s' := after (add_book_when locked book_data s) in
  file s' = file s /\
  ((exists e, result (Sqlite3.execute_insert book_data s) = Raise e) /\
   list_all s' = list_all s
   \/
   locked = true /\
   result (Sqlite3.execute_insert book_data s) = Ret tt /\
   exists t r,
     list_all s = Ret t /\
     Sqlite3.check_insert t book_data = inr r /\
     list_all s' = Ret (t ++ [r])).
Proof.
  intros R s'. subst s'. revert R.
  rewrite add_book_when_eq, execute_insert_eq. unfold result, after.
  destruct (view s) as [t|] eqn:V; cbn [fst snd].
  - destruct (Sqlite3.check_insert t book_data) as [e|r] eqn:C; cbn [fst snd].
    + intros _. split; [apply file_begin|]. left.
      split; [now exists e|].
      now rewrite !list_all_eq, view_begin.
    + destruct locked; cbn [fst snd]; [|discriminate].
      intros _. split; [reflexivity|]. right.
      split; [reflexivity|]. split; [reflexivity|].
      exists t, r. split; [now apply list_all_view|].
      split; [assumption|]. now apply list_all_view.
  - intros _. split; [reflexivity|]. left.
    split; [now exists OperationalError | reflexivity].
Qed.

Lemma add_book_failure_keeps_the_file_witness :
  let dune := [VText "Dune"; VText "Frank Herbert"; VText "1234567890";
               VText "Sci-Fi"; VText "1965"] in
  let s' := after (add_book_when true dune empty_store) in
  file s' = file empty_store /\
  ((exists e, result (Sqlite3.execute_insert dune empty_store) = Raise e) /\
   list_all s' = list_all empty_store
   \/
   true = true /\
   result (Sqlite3.execute_insert dune empty_store) = Ret tt /\
   exists t r,
     list_all empty_store = Ret t /\
     Sqlite3.check_insert t dune = inr r /\
     list_all s' = Ret (t ++ [r])).
Proof.
  exact (add_book_failure_keeps_the_file true empty_store
           [VText "Dune"; VText "Frank Herbert"; VText "1234567890";
            VText "Sci-Fi"; VText "1965"] eq_refl).
Defined.

(** C7, as stated, fails: on the store a fresh [DatabaseManager()] leaves,
    a tuple whose title and author are both the empty string is accepted,
    [add_book] returns [True] and the row is listed. *)
Lemma empty_title_and_author_accepted :
  result (add_book [VText ""; VText ""; VText "1234567890"; VText "Sci-Fi"; VText "1965"]
                   empty_store) = Ret true /\
  list_all (after (add_book [VText ""; VText ""; VText "1234567890"; VText "Sci-Fi";
                             VText "1965"] empty_store))
    = Ret [text_row "" "" "1234567890" "Sci-Fi" "1965"].
Proof. split; reflexivity. Qed.

(** C7, amended. What the table enforces on title and author is NOT NULL:
    a tuple whose title or author is NULL ([None]) makes [add_book] return
    [False] and leaves the listed rows and the file as they were; the empty
    string is not NULL, and a tuple with an empty title and author whose
    isbn is not stored yet is inserted like any other. *)
Theorem add_book_requires_non_null_title_author
    (s : store) (vt va vi vg vy : value) :
  (vt = VNull \/ va = VNull ->
     result (add_book [vt; va; vi; vg; vy] s) = Ret false /\
     list_all (after (add_book [vt; va; vi; vg; vy] s)) = list_all s /\
     file (after (add_book [vt; va; vi; vg; vy] s)) = file s) /\
  (forall t k,
     list_all s = Ret t ->
     (forall r, In r t -> isbn r <> VText k) ->
     result (add_book [VText ""; VText ""; VText k; vg; vy] s) = Ret true /\
     list_all (after (add_book [VText ""; VText ""; VText k; vg; vy] s))
       = Ret (t ++ [mk_row (VText "") (VText "") (VText k) vg vy])).
Proof.
  split.
  - intros N.
    assert (R : result (add_book [vt; va; vi; vg; vy] s) = Ret false).
    { rewrite add_book_eq. destruct (view s) as [t|]; [|reflexivity].
      unfold Sqlite3.check_insert.
      replace (is_null vt || is_null va) with true; [reflexivity|].
      destruct N as [-> | ->]; simpl; [reflexivity|].
      now rewrite orb_true_r. }
    destruct (add_book_false_unchanged _ _ R) as [Hv Hf].
    split; [assumption|]. split; [|assumption].
    now rewrite !list_all_eq, Hv.
  - intros t k L A.
    apply list_all_view in L. apply has_isbn_false in A.
    rewrite add_book_eq, L. unfold Sqlite3.check_insert. simpl. rewrite A.
    split; reflexivity.
Qed.

Lemma add_book_requires_non_null_title_author_witness :
  (result (add_book [VNull; VText "Frank Herbert"; VText "1234567890"; VText "Sci-Fi";
                     VText "1965"] empty_store) = Ret false /\
   list_all (after (add_book [VNull; VText "Frank Herbert"; VText "1234567890";
                              VText "Sci-Fi"; VText "1965"] empty_store))
     = list_all empty_store /\
   file (after (add_book [VNull; VText "Frank Herbert"; VText "1234567890";
                          VText "Sci-Fi"; VText "1965"] empty_store))
     = file empty_store) /\
  (result (add_book [VText ""; VText ""; VText "1234567890"; VText "Sci-Fi"; VText "1965"]
                    empty_store) = Ret true /\
   list_all (after (add_book [VText ""; VText ""; VText "1234567890"; VText "Sci-Fi";
                              VText "1965"] empty_store))
     = Ret ([] ++ [mk_row (VText "") (VText "") (VText "1234567890") (VText "Sci-Fi")
                          (VText "1965")])).
Proof.
  destruct (add_book_requires_non_null_title_author empty_store
              VNull (VText "Frank Herbert") (VText "1234567890") (VText "Sci-Fi")
              (VText "1965")) as [N E].
  split.
  - exact (N (or_introl eq_refl)).
  - exact (E [] "1234567890" eq_refl (fun r (H : In r []) => False_ind _ H)).
Defined.

(** ** Deletion *)

(** C4, as stated, fails: on the store a fresh [DatabaseManager()]
    leaves, which lists no row at all, [delete_book] on an isbn returns
    [True], not [False]. *)
Lemma delete_absent_isbn_returns_true :
  list_all empty_store = Ret [] /\
  result (delete_book "1234567890" empty_store) = Ret true /\
  result (delete_book "1234567890" empty_store) <> Ret false.
Proof. repeat split. discriminate. Qed.

(** C4, amended. On an initialized store, [delete_book] on an isbn that no
    stored record has raises nothing, returns [True] (success) and leaves
    the listed rows as they were; in particular, deleting an isbn a second
    time, after a first delete, returns [True] again and changes nothing. *)
Theorem delete_book_absent_isbn_succeeds (s : store) (t : table) (k : string) :
  list_all s = Ret t ->
  ((forall r, In r t -> isbn r <> VText k) ->
     result (delete_book k s) = Ret true /\
     list_all (after (delete_book k s)) = Ret t) /\
  (let s1 := after (delete_book k s) in
   result (delete_book k s) = Ret true /\
   result (delete_book k s1) = Ret true /\
   list_all (after (delete_book k s1)) = list_all s1).
Proof.
  intros L. apply list_all_view in L.
  assert (E : delete_book k s =
              (Ret true, mk_store (Some (filter (fun r => negb (isbn_is k r)) t)) None)).
  { rewrite delete_book_eq, L. reflexivity. }
  split.
  - intros A. rewrite E. unfold result, after; simpl.
    split; [reflexivity|].
    apply list_all_view. unfold view; simpl. now rewrite filter_absent_key.
  - intros s1. subst s1. rewrite E. unfold result, after. cbn [fst snd].
    split; [reflexivity|].
    rewrite delete_book_eq. unfold view. cbn [txn file fst snd].
    split; [reflexivity|].
    rewrite !list_all_eq. unfold view. cbn [txn file].
    f_equal. apply filter_absent_key.
    intros r Hin Hk. apply filter_In in Hin as [_ Hn].
    apply isbn_is_true in Hk. rewrite Hk in Hn. discriminate.
Qed.

Lemma delete_book_absent_isbn_succeeds_witness :
  (result (delete_book "1234567890" empty_store) = Ret true /\
   list_all (after (delete_book "1234567890" empty_store)) = Ret []) /\
  (result (delete_book "1234567890" empty_store) = Ret true /\
   result (delete_book "1234567890" (after (delete_book "1234567890" empty_store)))
     = Ret true /\
   list_all (after (delete_book "1234567890"
                      (after (delete_book "1234567890" empty_store))))
     = list_all (after (delete_book "1234567890" empty_store))).
Proof.
  destruct (delete_book_absent_isbn_succeeds empty_store [] "1234567890" eq_refl)
    as [A B].
  split.
  - exact (A (fun r (H : In r []) => False_ind _ H)).
  - exact B.
Defined.

(** C5. When the store holds a record with isbn [k], [delete_book k]
    returns [True], and [get_all_books] afterwards returns the former rows
    without those whose isbn is [k]: no listed row has isbn [k] any more,
    and a row with another isbn is listed after the call exactly when it
    was listed before it, the same five values in the same relative order. *)
Theorem delete_book_removes_exactly_the_key
    (s : store) (t : table) (r0 : row) (k : string) :
  list_all s = Ret t ->
  In r0 t ->
  isbn r0 = VText k ->
  result (delete_book k s) = Ret true /\
  exists t',
    list_all (after (delete_book k s)) = Ret t' /\
    t' = filter (fun r => negb (isbn_is k r)) t /\
    (forall r, In r t' -> isbn r <> VText k) /\
    (forall r, isbn r <> VText k -> (In r t' <-> In r t)) /\
    file (after (delete_book k s)) = Some t'.
Proof.
  intros L _ _. apply list_all_view in L.
  rewrite delete_book_eq, L. unfold result, after; simpl.
  split; [reflexivity|].
  exists (filter (fun r => negb (isbn_is k r)) t).
  split; [now apply list_all_view|].
  split; [reflexivity|].
  split; [|split; [|reflexivity]].
  - intros r Hin Hk. apply filter_In in Hin as [_ Hn].
    apply isbn_is_true in Hk. rewrite Hk in Hn. discriminate.
  - intros r Hk. rewrite filter_In. split; [tauto|].
    intros Hin. split; [assumption|].
    destruct (isbn_is k r) eqn:E; [|reflexivity].
    apply isbn_is_true in E. contradiction.
Qed.

Lemma delete_book_removes_exactly_the_key_witness :
  let dune := [VText "Dune"; VText "Frank Herbert"; VText "1234567890";
               VText "Sci-Fi"; VText "1965"] in
  let emma := [VText "Emma"; VText "Jane Austen"; VText "0987654321";
               VText "Novel"; VText "1815"] in
  let s := after (add_book emma (after (add_book dune empty_store))) in
  let t := [text_row "Dune" "Frank Herbert" "1234567890" "Sci-Fi" "1965";
            text_row "Emma" "Jane Austen" "0987654321" "Novel" "1815"] in
  result (delete_book "1234567890" s) = Ret true /\
  exists t',
    list_all (after (delete_book "1234567890" s)) = Ret t' /\
    t' = filter (fun r => negb (isbn_is "1234567890" r)) t /\
    (forall r, In r t' -> isbn r <> VText "1234567890") /\
    (forall r, isbn r <> VText "1234567890" -> (In r t' <-> In r t)) /\
    file (after (delete_book "1234567890" s)) = Some t'.
Proof.
  exact (delete_book_removes_exactly_the_key
           (after (add_book [VText "Emma"; VText "Jane Austen"; VText "0987654321";
                             VText "Novel"; VText "1815"]
                     (after (add_book [VText "Dune"; VText "Frank Herbert";
                                       VText "1234567890"; VText "Sci-Fi"; VText "1965"]
                               empty_store))))
           [text_row "Dune" "Frank Herbert" "1234567890" "Sci-Fi" "1965";
            text_row "Emma" "Jane Austen" "0987654321" "Novel" "1815"]
           (text_row "Dune" "Frank Herbert" "1234567890" "Sci-Fi" "1965")
           "1234567890" eq_refl (or_introl eq_refl) eq_refl).
Defined.

(** ** Bulk insertion *)

Lemma check_insert_inr (t : table) (params : list value) (r : row) :
  Sqlite3.check_insert t params = inr r -> row_tuple r = params.
Proof.
  unfold Sqlite3.check_insert.
  destruct params as [|vt [|va [|vi [|vg [|vy [|x l]]]]]]; try discriminate.
  destruct (is_null vt || is_null va); [discriminate|].
  destruct vi as [|k]; [|destruct (has_isbn k t)]; intros H;
    try discriminate; injection H as <-; reflexivity.
Qed.

Lemma open_store_eta (s : store) (t : table) :
  txn s = Some t -> s = mk_store (file s) (Some (t ++ [])).
Proof. destruct s as [f x]; simpl. intros ->. now rewrite app_nil_r. Qed.

(** The loop of [executemany] inside an open transaction whose working
    copy is [t]: it runs through the whole batch, or stops at the first
    tuple [bad] the table rejects, with the tuples before it inserted. *)
Lemma insert_steps_outcome (batch : list (list value)) :
  forall (s : store) (t : table),
    txn s = Some t ->
    (exists rows,
        map row_tuple rows = batch /\
        Sqlite3.insert_steps batch s = (Ret tt, mk_store (file s) (Some (t ++ rows))))
    \/
    (exists e pre bad post rows,
        batch = pre ++ bad :: post /\
        map row_tuple rows = pre /\
        Sqlite3.check_insert (t ++ rows) bad = inl e /\
        Sqlite3.insert_steps batch s = (Raise e, mk_store (file s) (Some (t ++ rows)))).
Proof.
  induction batch as [|p rest IH]; intros s t T.
  - left. exists []. split; [reflexivity|].
    simpl. unfold ret. f_equal. now apply open_store_eta.
  - assert (V : view s = Some t) by (unfold view; now rewrite T).
    simpl. unfold bind, Sqlite3.insert_step. rewrite V.
    destruct (Sqlite3.check_insert t p) as [e|r] eqn:C.
    + right. exists e, [], p, rest, []. rewrite app_nil_r.
      repeat split; [assumption|].
      f_equal. rewrite (open_store_eta s t T) at 1. now rewrite app_nil_r.
    + destruct (IH (mk_store (file s) (Some (t ++ [r]))) (t ++ [r]) eq_refl)
        as [(rows & Hm & Hr) | (e & pre & bad & post & rows & Hb & Hm & Hc & Hr)].
      * left. exists (r :: rows). split.
        { simpl. fold (row_tuple r). now rewrite (check_insert_inr _ _ _ C), Hm. }
        rewrite Hr. simpl. now rewrite <- app_assoc.
      * right. exists e, (p :: pre), bad, post, (r :: rows).
        rewrite <- app_assoc in Hc, Hr. simpl in Hc, Hr.
        repeat split.
        { now rewrite Hb. }
        { simpl. fold (row_tuple r). now rewrite (check_insert_inr _ _ _ C), Hm. }
        { assumption. }
        { rewrite Hr. reflexivity. }
Qed.

(** C6, as stated, fails: on the store a fresh [DatabaseManager()]
    leaves, [add_sample_books] with every random draw equal to 0 builds
    fifty tuples with the isbn 0000000000; the call raises IntegrityError
    at the second, and [get_all_books] then returns the first tuple alone,
    so the batch is neither absent nor complete. *)
Lemma add_sample_books_partial_insert :
  length (_generate_sample_data 2024 (fun _ => 0%nat)) = 50%nat /\
  list_all empty_store = Ret [] /\
  result (add_sample_books 2024 (fun _ => 0%nat) empty_store) = Raise IntegrityError /\
  list_all (after (add_sample_books 2024 (fun _ => 0%nat) empty_store))
    = Ret [text_row "The Art of Programming 1" "John Smith" "0000000000"
                    "Programming" "2004"].
Proof. repeat split. Qed.

(** C6, amended. On an initialized store listing [t], [insert_many]
    inserts the tuples in order and has two outcomes. Either every tuple
    is accepted: the call returns, and [t] followed by the whole batch is
    both listed and committed. Or it raises at the first tuple [bad] the
    table rejects: the call commits nothing, the tuples after [bad] are not
    inserted, and the tuples before [bad] are listed by [get_all_books] on
    this connection, as uncommitted rows. *)
Theorem insert_many_all_or_prefix (s : store) (t : table) (batch : list (list value)) :
  list_all s = Ret t ->
  (exists rows,
      map row_tuple rows = batch /\
      result (insert_many batch s) = Ret tt /\
      list_all (after (insert_many batch s)) = Ret (t ++ rows) /\
      file (after (insert_many batch s)) = Some (t ++ rows))
  \/
  (exists e pre bad post rows,
      batch = pre ++ bad :: post /\
      map row_tuple rows = pre /\
      Sqlite3.check_insert (t ++ rows) bad = inl e /\
      result (insert_many batch s) = Raise e /\
      list_all (after (insert_many batch s)) = Ret (t ++ rows) /\
      file (after (insert_many batch s)) = file s).
Proof.
  intros L. apply list_all_view in L.
  unfold insert_many, bind, Sqlite3.executemany_insert. rewrite L.
  destruct (insert_steps_outcome batch (Sqlite3.begin s) t (txn_begin s t L))
    as [(rows & Hm & Hr) | (e & pre & bad & post & rows & Hb & Hm & Hc & Hr)];
    rewrite Hr, file_begin.
  - left. exists rows. unfold result, after, Sqlite3.commit, view; simpl.
    split; [assumption|]. split; [reflexivity|].
    split; [now apply list_all_view | reflexivity].
  - right. exists e, pre, bad, post, rows. unfold result, after; simpl.
    split; [assumption|]. split; [assumption|]. split; [assumption|].
    split; [reflexivity|].
    split; [now apply list_all_view | reflexivity].
Qed.

Lemma insert_many_all_or_prefix_witness :
  let dune := [VText "Dune"; VText "Frank Herbert"; VText "1234567890";
               VText "Sci-Fi"; VText "1965"] in
  let emma := [VText "Emma"; VText "Jane Austen"; VText "1234567890";
               VText "Novel"; VText "1815"] in
  (exists rows,
      map row_tuple rows = [dune; emma] /\
      result (insert_many [dune; emma] empty_store) = Ret tt /\
      list_all (after (insert_many [dune; emma] empty_store)) = Ret ([] ++ rows) /\
      file (after (insert_many [dune; emma] empty_store)) = Some ([] ++ rows))
  \/
  (exists e pre bad post rows,
      [dune; emma] = pre ++ bad :: post /\
      map row_tuple rows = pre /\
      Sqlite3.check_insert ([] ++ rows) bad = inl e /\
      result (insert_many [dune; emma] empty_store) = Raise e /\
      list_all (after (insert_many [dune; emma] empty_store)) = Ret ([] ++ rows) /\
      file (after (insert_many [dune; emma] empty_store)) = file empty_store).
Proof.
  exact (insert_many_all_or_prefix empty_store []
           [[VText "Dune"; VText "Frank Herbert"; VText "1234567890";
             VText "Sci-Fi"; VText "1965"];
            [VText "Emma"; VText "Jane Austen"; VText "1234567890";
             VText "Novel"; VText "1815"]]
           eq_refl).
Defined.

(** ** Initialization *)

(** C8, as stated, fails: after a bulk insertion that raised at its
    second tuple, [get_all_books] returns the first tuple, uncommitted;
    [connect] and [create_tables] run again, and [get_all_books] returns
    nothing. *)
Lemma init_drops_uncommitted_rows :
  let dune := [VText "Dune"; VText "Frank Herbert"; VText "1234567890";
               VText "Sci-Fi"; VText "1965"] in
  let s := run [Initialize; InsertMany [dune; dune]] fresh in
  list_all s = Ret [text_row "Dune" "Frank Herbert" "1234567890" "Sci-Fi" "1965"] /\
  list_all (after (init s)) = Ret [] /\
  list_all (after (init s)) <> list_all s.
Proof. repeat split. discriminate. Qed.

(** C8, amended. On a store where no uncommitted change is pending,
    whenever [connect] and [create_tables] run again and return, no
    record is erased and none is duplicated: [get_all_books] returns
    after it exactly the list it returned before, the file holds that same
    list, and running them once more changes nothing at all. *)
Theorem init_keeps_settled_listing (s : store) (t : table) :
  settled s ->
  list_all s = Ret t ->
  result (init s) = Ret tt ->
  let s1 := after (init s) in
  list_all s1 = Ret t /\
  file s1 = Some t /\
  after (init s1) = s1.
Proof.
  intros St L _ s1. subst s1.
  assert (F : file s = Some t).
  { apply list_all_view in L. unfold view in L.
    destruct St as [E | E]; rewrite E in L; [assumption|].
    destruct (file s); [assumption | discriminate]. }
  rewrite !init_eq. unfold after, stored. cbn [snd file]. rewrite F.
  split; [reflexivity|]. split; reflexivity.
Qed.

Lemma init_keeps_settled_listing_witness :
  let dune := text_row "Dune" "Frank Herbert" "1234567890" "Sci-Fi" "1965" in
  let s := after (add_book (row_tuple dune) empty_store) in
  let s1 := after (init s) in
  list_all s1 = Ret [dune] /\
  file s1 = Some [dune] /\
  after (init s1) = s1.
Proof.
  exact (init_keeps_settled_listing
           (after (add_book (row_tuple (text_row "Dune" "Frank Herbert" "1234567890"
                                                 "Sci-Fi" "1965")) empty_store))
           [text_row "Dune" "Frank Herbert" "1234567890" "Sci-Fi" "1965"]
           (or_introl eq_refl) eq_refl eq_refl).
Defined.

(** ** Generated sample data *)

Lemma randint_range (a b : Z) (g : rng) :
  (a <= b)%Z -> (a <= fst (randint a b g) <= b)%Z.
Proof.
  intros H. unfold randint, draw. simpl.
  pose proof (Z.mod_pos_bound (Z.of_nat (g 0%nat)) (b - a + 1)) as B.
  lia.
Qed.

Lemma read_int_str (n : Z) : read_int (str n) = Some n.
Proof.
  unfold read_int, str. rewrite NilEmpty.isi. simpl. now rewrite DecimalZ.of_to.
Qed.

Lemma str_digit (d : Z) :
  (0 <= d <= 9)%Z -> exists c, str d = String c "" /\ is_digit c = true.
Proof.
  intros H.
  assert (C : (d = 0 \/ d = 1 \/ d = 2 \/ d = 3 \/ d = 4 \/
               d = 5 \/ d = 6 \/ d = 7 \/ d = 8 \/ d = 9)%Z) by lia.
  repeat (destruct C as [-> | C]; [eexists; split; reflexivity|]).
  subst d. eexists; split; reflexivity.
Qed.

Lemma random_digits_spec (n : nat) :
  forall g, String.length (fst (random_digits n g)) = n /\
            all_digits (fst (random_digits n g)) = true.
Proof.
  induction n as [|n IH]; intros g; [split; reflexivity|].
  cbn [random_digits].
  pose proof (randint_range 0 9 g ltac:(lia)) as B.
  destruct (randint 0 9 g) as [d g1]. cbn [fst] in B.
  specialize (IH g1). destruct (random_digits n g1) as [ds g2]. cbn [fst] in *.
  destruct (str_digit d B) as (c & -> & Hc).
  cbn [String.append String.length all_digits].
  destruct IH as [-> ->]. now rewrite Hc.
Qed.

Lemma sample_book_ok (current_year : Z) (g : rng) :
  sample_ok current_year (fst (sample_book current_year g)).
Proof.
  unfold sample_book.
  destruct (choice titles g) as [t g1].
  destruct (randint 1 5 g1) as [n g2].
  destruct (choice authors g2) as [a g3].
  pose proof (random_digits_spec 10 g3) as [Hl Hd].
  destruct (random_digits 10 g3) as [i g4].
  destruct (choice genres g4) as [ge g5].
  pose proof (randint_range (current_year - 20) current_year g5 ltac:(lia)) as Hy.
  destruct (randint (current_year - 20) current_year g5) as [y g6].
  simpl in *.
  exists (String.append t (String.append " " (str n))), a, i, ge, (str y), y.
  repeat split; auto; try lia. apply read_int_str.
Qed.

Lemma sample_books_spec (n : nat) (current_year : Z) :
  forall g, length (sample_books n current_year g) = n /\
            Forall (sample_ok current_year) (sample_books n current_year g).
Proof.
  induction n as [|n IH]; intros g; cbn [sample_books]; [split; constructor|].
  pose proof (sample_book_ok current_year g) as Hb.
  destruct (sample_book current_year g) as [b g']. cbn [fst] in Hb.
  destruct (IH g') as [Hl Hf]. cbn [length].
  split; [now rewrite Hl | now constructor].
Qed.

(** *** A batch of text tuples with fresh, pairwise distinct isbns *)

Lemma check_insert_text_rejected (t : table) (a b k c d : string) (e : sqlite_error) :
  Sqlite3.check_insert t [VText a; VText b; VText k; VText c; VText d] = inl e ->
  has_isbn k t = true.
Proof.
  unfold Sqlite3.check_insert. simpl.
  destruct (has_isbn k t); [reflexivity | discriminate].
Qed.

Lemma tuple_isbn_row (r : row) : tuple_isbn (row_tuple r) = isbn r.
Proof. reflexivity. Qed.

Lemma insert_many_distinct_keys (s : store) (t : table) (batch : list (list value)) :
  list_all s = Ret t ->
  Forall (fun b => exists y, sample_ok y b) batch ->
  NoDup (map tuple_isbn batch) ->
  (forall b r, In b batch -> In r t -> isbn r <> tuple_isbn b) ->
  exists rows,
    map row_tuple rows = batch /\
    insert_many batch s = (Ret tt, mk_store (Some (t ++ rows)) None).
Proof.
  intros L Hok Hnd Hfresh. apply list_all_view in L.
  unfold insert_many, bind, Sqlite3.executemany_insert. rewrite L.
  destruct (insert_steps_outcome batch (Sqlite3.begin s) t (txn_begin s t L))
    as [(rows & Hm & Hr) | (e & pre & bad & post & rows & Hb & Hm & Hc & Hr)];
    rewrite Hr.
  - exists rows. split; [assumption | reflexivity].
  - exfalso. subst batch.
    rewrite Forall_forall in Hok.
    destruct (Hok bad) as (y & a & b & k & c & d & n & -> & _);
      [apply in_or_app; right; now left|].
    apply check_insert_text_rejected in Hc.
    apply has_isbn_true in Hc as (r & Hin & Hk).
    apply in_app_or in Hin as [Hin | Hin].
    + apply (Hfresh [VText a; VText b; VText k; VText c; VText d] r); auto.
      apply in_or_app; right; now left.
    + rewrite map_app in Hnd. simpl in Hnd.
      apply NoDup_remove_2 in Hnd. apply Hnd.
      apply in_or_app. left. rewrite <- Hm, map_map.
      apply in_map_iff. exists r. split; [|assumption].
      now rewrite tuple_isbn_row.
Qed.

(** C9, as stated, fails: with every random draw equal to 7 the fifty
    generated tuples all carry the isbn 7777777777; on the store a fresh
    [DatabaseManager()] leaves, [add_sample_books] raises IntegrityError
    and [get_all_books] then returns one record, not fifty. *)
Lemma add_sample_books_fewer_than_fifty :
  list_all empty_store = Ret [] /\
  result (add_sample_books 2026 (fun _ => 7%nat) empty_store) = Raise IntegrityError /\
  list_all (after (add_sample_books 2026 (fun _ => 7%nat) empty_store))
    = Ret [text_row "Data Science 101 3" "Lisa Anderson" "7777777777"
                    "Programming" "2013"].
Proof. repeat split. Qed.

(** C9, amended. [_generate_sample_data] returns fifty tuples of five
    strings, each with an isbn of exactly ten decimal digits and a year
    that reads as a number of [current_year - 20 .. current_year]. When the
    fifty generated isbns are pairwise distinct, [add_sample_books] on the
    empty store returns and [get_all_books] then returns fifty records,
    which are those fifty tuples in order. *)
Theorem add_sample_books_fifty_records (current_year : Z) (g : rng) :
  let batch := _generate_sample_data current_year g in
  length batch = 50%nat /\
  Forall (sample_ok current_year) batch /\
  (NoDup (map tuple_isbn batch) ->
   result (add_sample_books current_year g empty_store) = Ret tt /\
   exists rows,
     list_all (after (add_sample_books current_year g empty_store)) = Ret rows /\
     length rows = 50%nat /\
     map row_tuple rows = batch).
Proof.
  intros batch.
  destruct (sample_books_spec 50 current_year g) as [Hl Hok].
  fold (_generate_sample_data current_year g) in Hl, Hok. fold batch in Hl, Hok.
  split; [assumption|]. split; [assumption|].
  intros Hnd.
  destruct (insert_many_distinct_keys empty_store [] batch eq_refl) as (rows & Hm & Hr).
  - eapply Forall_impl; [|exact Hok]. intros b Hb. now exists current_year.
  - assumption.
  - intros b r _ [].
  - unfold add_sample_books. fold batch. rewrite Hr. unfold result, after. cbn [fst snd].
    split; [reflexivity|]. exists rows.
    split; [reflexivity|]. split; [|assumption].
    rewrite <- Hl, <- Hm. now rewrite length_map.
Qed.

Lemma value_eqb_eq (v w : value) : value_eqb v w = true <-> v = w.
Proof.
  destruct v as [|a], w as [|b]; simpl; split; intros H;
    try discriminate; try reflexivity.
  - apply String.eqb_eq in H. now subst.
  - injection H as ->. apply String.eqb_refl.
Qed.

Lemma distinct_values_NoDup (l : list value) : distinct_values l = true -> NoDup l.
Proof.
  induction l as [|v l IH]; simpl; intros H; constructor;
    apply andb_prop in H as [Hn Hd]; [|now apply IH].
  intros Hin. apply negb_true_iff in Hn.
  assert (existsb (value_eqb v) l = true); [|congruence].
  apply existsb_exists. exists v. split; [assumption | now apply value_eqb_eq].
Qed.

Lemma add_sample_books_fifty_records_witness :
  length (_generate_sample_data 2026 counting_tape) = 50%nat /\
  Forall (sample_ok 2026) (_generate_sample_data 2026 counting_tape) /\
  (result (add_sample_books 2026 counting_tape empty_store) = Ret tt /\
   exists rows,
     list_all (after (add_sample_books 2026 counting_tape empty_store)) = Ret rows /\
     length rows = 50%nat /\
     map row_tuple rows = _generate_sample_data 2026 counting_tape).
Proof.
  destruct (add_sample_books_fifty_records 2026 counting_tape) as (Hl & Hok & Hins).
  split; [exact Hl|]. split; [exact Hok|].
  apply Hins. apply distinct_values_NoDup. vm_compute. reflexivity.
Defined.

(** ** Reachable stores *)

Lemma store_inv_view (s : store) (t : table) :
  store_inv s -> view s = Some t -> keys_unique t.
Proof.
  intros [Hf Ht]. unfold view. destruct (txn s) as [t'|] eqn:E; intros H.
  - injection H as <-. now apply Ht.
  - now apply Hf.
Qed.

Lemma store_inv_intro (f x : option table) :
  (forall t, f = Some t -> keys_unique t) ->
  (forall t, x = Some t -> keys_unique t) ->
  store_inv (mk_store f x).
Proof. intros Hf Hx. split; assumption. Qed.

Lemma keys_unique_nil : keys_unique [].
Proof. split; constructor. Qed.

Lemma keys_unique_snoc (t : table) (params : list value) (r : row) :
  keys_unique t ->
  supplies_isbn params ->
  Sqlite3.check_insert t params = inr r ->
  keys_unique (t ++ [r]).
Proof.
  intros [Hnd Hall] Hs C.
  unfold Sqlite3.check_insert in C.
  destruct params as [|vt [|va [|vi [|vg [|vy [|x l]]]]]]; try discriminate.
  destruct (is_null vt || is_null va); [discriminate|].
  destruct vi as [|k]; [now elim Hs|].
  destruct (has_isbn k t) eqn:A; [discriminate|].
  injection C as <-.
  split.
  - rewrite map_app. apply NoDup_app; [assumption | repeat constructor; intros [] |].
    simpl. intros v Hin [<- | []].
    apply in_map_iff in Hin as (r & E & Hin).
    exact (proj1 (has_isbn_false k t) A r Hin E).
  - apply Forall_app. split; [assumption|].
    constructor; [discriminate | constructor].
Qed.

(** Dropping rows keeps the isbns of the remaining ones distinct. *)
Lemma distinct_isbns_filter (keep : row -> bool) (t : table) :
  NoDup (map isbn t) -> NoDup (map isbn (filter keep t)).
Proof.
  intros Hnd. induction t as [|r t IH]; simpl; [constructor|].
  simpl in Hnd. apply NoDup_cons_iff in Hnd as [Hn Hd].
  destruct (keep r); simpl; [|now apply IH].
  constructor; [|now apply IH].
  intros Hin. apply Hn.
  apply in_map_iff in Hin as (r' & E & Hr').
  apply in_map_iff. exists r'. split; [assumption|].
  now apply filter_In in Hr'.
Qed.

Lemma keys_unique_filter (p : row -> bool) (t : table) :
  keys_unique t -> keys_unique (filter p t).
Proof.
  intros [Hnd Hall]. split; [now apply distinct_isbns_filter|].
  rewrite Forall_forall in *. intros r Hin.
  apply filter_In in Hin. now apply Hall.
Qed.

Lemma insert_steps_keys (batch : list (list value)) :
  forall (s : store) (t : table),
    txn s = Some t ->
    keys_unique t ->
    Forall supplies_isbn batch ->
    exists t',
      txn (after (Sqlite3.insert_steps batch s)) = Some t' /\
      keys_unique t' /\
      file (after (Sqlite3.insert_steps batch s)) = file s.
Proof.
  induction batch as [|p rest IH]; intros s t T K F.
  - exists t. simpl. split; [assumption|]. split; [assumption | reflexivity].
  - inversion F as [|? ? Hp Hrest]; subst.
    assert (V : view s = Some t) by (unfold view; now rewrite T).
    simpl. unfold bind, Sqlite3.insert_step. rewrite V.
    destruct (Sqlite3.check_insert t p) as [e|r] eqn:C.
    + exists t. unfold after; simpl.
      split; [assumption|]. split; [assumption | reflexivity].
    + apply (IH (mk_store (file s) (Some (t ++ [r]))) (t ++ [r]) eq_refl);
        [|assumption].
      now apply (keys_unique_snoc t p r).
Qed.

Lemma sample_ok_supplies_isbn (y : Z) (b : list value) :
  sample_ok y b -> supplies_isbn b.
Proof.
  intros (t & a & i & ge & yy & n & -> & _). unfold supplies_isbn.
  simpl. discriminate.
Qed.

Lemma init_inv (s : store) : store_inv s -> store_inv (after (init s)).
Proof.
  intros [Hf _]. rewrite init_eq. unfold after; simpl.
  apply store_inv_intro; [|discriminate].
  intros t E. injection E as <-. unfold stored.
  destruct (file s) as [t|]; [now apply Hf | apply keys_unique_nil].
Qed.

Lemma begin_inv (s : store) : store_inv s -> store_inv (Sqlite3.begin s).
Proof.
  intros I. unfold Sqlite3.begin. destruct (txn s) eqn:E; [assumption|].
  destruct I as [Hf _]. now apply store_inv_intro.
Qed.

Lemma add_book_inv (book_data : list value) (s : store) :
  supplies_isbn book_data -> store_inv s -> store_inv (after (add_book book_data s)).
Proof.
  intros Hs I. rewrite add_book_eq.
  destruct (view s) as [t|] eqn:V; [|assumption].
  destruct (Sqlite3.check_insert t book_data) as [e|r] eqn:C; unfold after; simpl.
  - now apply begin_inv.
  - apply store_inv_intro; [|discriminate].
    intros t' E. injection E as <-.
    apply (keys_unique_snoc t book_data r); auto.
    now apply (store_inv_view s).
Qed.

Lemma delete_book_inv (k : string) (s : store) :
  store_inv s -> store_inv (after (delete_book k s)).
Proof.
  intros I. rewrite delete_book_eq.
  destruct (view s) as [t|] eqn:V; [|assumption].
  unfold after; simpl. apply store_inv_intro; [|discriminate].
  intros t' E. injection E as <-.
  apply keys_unique_filter. now apply (store_inv_view s).
Qed.

Lemma insert_many_inv (batch : list (list value)) (s : store) :
  Forall supplies_isbn batch -> store_inv s -> store_inv (after (insert_many batch s)).
Proof.
  intros F I. unfold insert_many, bind, Sqlite3.executemany_insert.
  destruct (view s) as [t|] eqn:V; [|assumption].
  destruct (insert_steps_keys batch (Sqlite3.begin s) t (txn_begin s t V)
              (store_inv_view s t I V) F) as (t' & T' & K' & F').
  destruct (Sqlite3.insert_steps batch (Sqlite3.begin s)) as [[[]|e] s1];
    unfold after in *; simpl in *.
  - unfold view. rewrite T'. apply store_inv_intro; [|discriminate].
    intros t0 E. injection E as <-. assumption.
  - split.
    + rewrite F', file_begin. apply I.
    + intros t0 E. rewrite T' in E. injection E as <-. assumption.
Qed.

Lemma step_inv (o : op) (s : store) :
  well_keyed o -> store_inv s -> store_inv (step s o).
Proof.
  destruct o as [|bd|batch|y g|k]; simpl; intros W I.
  - now apply init_inv.
  - now apply add_book_inv.
  - now apply insert_many_inv.
  - apply insert_many_inv; [|assumption].
    destruct (sample_books_spec 50 y g) as [_ Hok].
    eapply Forall_impl; [|exact Hok]. apply sample_ok_supplies_isbn.
  - now apply delete_book_inv.
Qed.

Lemma run_inv (ops : list op) :
  forall s, Forall well_keyed ops -> store_inv s -> store_inv (run ops s).
Proof.
  induction ops as [|o ops IH]; intros s F I; [assumption|].
  inversion F; subst. simpl. apply IH; [assumption|]. now apply step_inv.
Qed.

(** C2. Start from a location holding nothing (a first [Initialize] makes
    it the empty store) and make any sequence of calls to initialization,
    [add_book], bulk insertion, [add_sample_books] and [delete_book], each
    inserted tuple supplying an isbn; whether the calls returned or
    raised, the records [get_all_books] then returns have pairwise distinct
    isbns, and so have the records committed to the file. *)
Theorem isbn_unique_in_every_reachable_store (ops : list op) (t : table) :
  Forall well_keyed ops ->
  list_all (run ops fresh) = Ret t ->
  NoDup (map isbn t) /\ NoDup (map isbn (stored (run ops fresh))).
Proof.
  intros F L.
  assert (I : store_inv (run ops fresh)).
  { apply run_inv; [assumption|]. split; discriminate. }
  split.
  - apply list_all_view in L. now apply (store_inv_view _ _ I L).
  - unfold stored. destruct (file (run ops fresh)) as [t'|] eqn:E.
    + now apply (proj1 I t').
    + constructor.
Qed.

Lemma isbn_unique_in_every_reachable_store_witness :
  let dune := [VText "Dune"; VText "Frank Herbert"; VText "1234567890";
               VText "Sci-Fi"; VText "1965"] in
  let emma := [VText "Emma"; VText "Jane Austen"; VText "1234567890";
               VText "Novel"; VText "1815"] in
  let ops := [Initialize; Insert dune; Insert emma;
              AddSampleBooks 2026 (fun _ => 7%nat); Delete "0000000000";
              Insert [VText "Emma"; VText "Jane Austen"; VText "0987654321";
                      VText "Novel"; VText "1815"];
              Initialize] in
  NoDup (map isbn [text_row "Dune" "Frank Herbert" "1234567890" "Sci-Fi" "1965";
                   text_row "Data Science 101 3" "Lisa Anderson" "7777777777"
                            "Programming" "2013";
                   text_row "Emma" "Jane Austen" "0987654321" "Novel" "1815"]) /\
  NoDup (map isbn (stored (run ops fresh))).
Proof.
  apply (isbn_unique_in_every_reachable_store
           [Initialize;
            Insert [VText "Dune"; VText "Frank Herbert"; VText "1234567890";
                    VText "Sci-Fi"; VText "1965"];
            Insert [VText "Emma"; VText "Jane Austen"; VText "1234567890";
                    VText "Novel"; VText "1815"];
            AddSampleBooks 2026 (fun _ => 7%nat); Delete "0000000000";
            Insert [VText "Emma"; VText "Jane Austen"; VText "0987654321";
                    VText "Novel"; VText "1815"];
            Initialize]).
  - repeat constructor; discriminate.
  - vm_compute. reflexivity.
Defined.

(** The isbn column is a PRIMARY KEY of a rowid table without NOT NULL: a
    tuple whose isbn is [None] is accepted, twice over, and the two rows
    are listed with the same NULL isbn. This is why the uniqueness above is
    stated for tuples that supply an isbn. *)
Lemma null_isbn_is_not_a_key :
  let anon := [VText "Beowulf"; VText "Anonymous"; VNull; VText "Epic"; VText "1000"] in
  let s1 := after (add_book anon empty_store) in
  result (add_book anon empty_store) = Ret true /\
  result (add_book anon s1) = Ret true /\
  list_all (after (add_book anon s1))
    = Ret [mk_row (VText "Beowulf") (VText "Anonymous") VNull (VText "Epic") (VText "1000");
           mk_row (VText "Beowulf") (VText "Anonymous") VNull (VText "Epic") (VText "1000")].
Proof. repeat split. Qed.

(** ** Further properties of the store *)

Lemma is_null_false (v : value) : is_null v = false <-> v <> VNull.
Proof. destruct v; simpl; split; intros H; congruence. Qed.

(** *** When an insertion is accepted *)

(** On an initialized store, [add_book] on a tuple of five fields returns
    [True] exactly when title and author are not NULL and the isbn, if it
    is a text, is the isbn of no listed record; a NULL isbn is never in
    the way. *)
Theorem add_book_succeeds_iff
    (s : store) (t : table) (vt va vi vg vy : value) :
  list_all s = Ret t ->
  (result (add_book [vt; va; vi; vg; vy] s) = Ret true <->
   vt <> VNull /\ va <> VNull /\
   (forall k, vi = VText k -> forall r, In r t -> isbn r <> VText k)).
Proof.
  intros L. apply list_all_view in L.
  rewrite add_book_eq, L. unfold Sqlite3.check_insert, result.
  destruct (is_null vt) eqn:Nt; simpl.
  - split; [discriminate|]. intros (Ht & _). destruct vt; [now elim Ht | discriminate].
  - destruct (is_null va) eqn:Na; simpl.
    + split; [discriminate|]. intros (_ & Ha & _).
      destruct va; [now elim Ha | discriminate].
    + apply is_null_false in Nt, Na.
      destruct vi as [|k].
      * split; [|reflexivity]. intros _. repeat split; auto. discriminate.
      * destruct (has_isbn k t) eqn:A; simpl.
        { split; [discriminate|]. intros (_ & _ & H).
          apply has_isbn_true in A as (r & Hin & Hk).
          elim (H k eq_refl r Hin Hk). }
        { split; [|reflexivity]. intros _. repeat split; auto.
          intros k' E. injection E as <-. now apply has_isbn_false. }
Qed.

Lemma add_book_succeeds_iff_witness :
  result (add_book [VText "Dune"; VText "Frank Herbert"; VNull; VNull; VNull]
                   empty_store) = Ret true <->
  VText "Dune" <> VNull /\ VText "Frank Herbert" <> VNull /\
  (forall k, VNull = VText k -> forall r, In r [] -> isbn r <> VText k).
Proof.
  exact (add_book_succeeds_iff empty_store [] (VText "Dune") (VText "Frank Herbert")
           VNull VNull VNull eq_refl).
Defined.

(** A tuple that does not have exactly five fields is rejected in every
    store: [add_book] returns [False], and neither the listing nor the
    file changes. *)
Theorem add_book_wrong_arity_rejected (s : store) (book_data : list value) :
  length book_data <> 5%nat ->
  result (add_book book_data s) = Ret false /\
  list_all (after (add_book book_data s)) = list_all s /\
  file (after (add_book book_data s)) = file s.
Proof.
  intros Hl.
  assert (R : result (add_book book_data s) = Ret false).
  { rewrite add_book_eq. destruct (view s) as [t|]; [|reflexivity].
    unfold Sqlite3.check_insert.
    destruct book_data as [|vt [|va [|vi [|vg [|vy [|x l]]]]]]; try reflexivity.
    now elim Hl. }
  destruct (add_book_false_unchanged _ _ R) as [Hv Hf].
  split; [assumption|]. split; [|assumption].
  now rewrite !list_all_eq, Hv.
Qed.

Lemma add_book_wrong_arity_rejected_witness :
  result (add_book [VText "Dune"; VText "Frank Herbert"; VText "1234567890";
                    VText "Sci-Fi"; VText "1965"; VText "Ace"] empty_store) = Ret false /\
  list_all (after (add_book [VText "Dune"; VText "Frank Herbert"; VText "1234567890";
                             VText "Sci-Fi"; VText "1965"; VText "Ace"] empty_store))
    = list_all empty_store /\
  file (after (add_book [VText "Dune"; VText "Frank Herbert"; VText "1234567890";
                         VText "Sci-Fi"; VText "1965"; VText "Ace"] empty_store))
    = file empty_store.
Proof.
  apply (add_book_wrong_arity_rejected empty_store
           [VText "Dune"; VText "Frank Herbert"; VText "1234567890";
            VText "Sci-Fi"; VText "1965"; VText "Ace"]).
  simpl. discriminate.
Defined.

(** *** Before and after [create_tables] *)

(** While the [books] table does not exist, [get_all_books] raises
    OperationalError, [add_book] and [delete_book] return [False], the bulk
    insertion raises OperationalError without committing, and none of them
    changes the store; [create_tables] then makes the table, empty, and
    [get_all_books] returns the empty list. *)
Theorem without_table_nothing_works
    (s : store) (book_data : list value) (batch : list (list value)) (k : string) :
  view s = None ->
  get_all_books s = (Raise OperationalError, s) /\
  add_book book_data s = (Ret false, s) /\
  delete_book k s = (Ret false, s) /\
  insert_many batch s = (Raise OperationalError, s) /\
  result (create_tables s) = Ret tt /\
  list_all (after (create_tables s)) = Ret [] /\
  file (after (create_tables s)) = Some [].
Proof.
  intros V.
  split. { unfold get_all_books, Sqlite3.execute_select_all. now rewrite V. }
  split. { rewrite add_book_eq. now rewrite V. }
  split. { rewrite delete_book_eq. now rewrite V. }
  split. { unfold insert_many, bind, Sqlite3.executemany_insert. now rewrite V. }
  unfold create_tables, bind, Sqlite3.execute_create_table, Sqlite3.commit.
  rewrite V. unfold result, after. simpl.
  unfold view in V. destruct (txn s); [discriminate|].
  repeat split.
Qed.

Lemma without_table_nothing_works_witness :
  get_all_books fresh = (Raise OperationalError, fresh) /\
  add_book [VText "Dune"; VText "Frank Herbert"; VText "1234567890"; VText "Sci-Fi";
            VText "1965"] fresh = (Ret false, fresh) /\
  delete_book "1234567890" fresh = (Ret false, fresh) /\
  insert_many [] fresh = (Raise OperationalError, fresh) /\
  result (create_tables fresh) = Ret tt /\
  list_all (after (create_tables fresh)) = Ret [] /\
  file (after (create_tables fresh)) = Some [].
Proof.
  exact (without_table_nothing_works fresh
           [VText "Dune"; VText "Frank Herbert"; VText "1234567890"; VText "Sci-Fi";
            VText "1965"] [] "1234567890" eq_refl).
Defined.

Lemma step_keeps_table (o : op) (s : store) :
  view s <> None -> view (step s o) <> None.
Proof.
  intros V. destruct (view s) as [t|] eqn:E; [clear V | now elim V].
  destruct o as [|bd|batch|y g|k]; simpl.
  - rewrite init_eq. discriminate.
  - rewrite add_book_eq, E.
    destruct (Sqlite3.check_insert t bd); unfold after; simpl.
    + rewrite view_begin, E. discriminate.
    + discriminate.
  - unfold insert_many, bind, Sqlite3.executemany_insert. rewrite E.
    destruct (insert_steps_outcome batch (Sqlite3.begin s) t (txn_begin s t E))
      as [(rows & _ & Hr) | (e & pre & bad & post & rows & _ & _ & _ & Hr)];
      rewrite Hr; discriminate.
  - unfold add_sample_books, insert_many, bind, Sqlite3.executemany_insert. rewrite E.
    destruct (insert_steps_outcome (_generate_sample_data y g) (Sqlite3.begin s) t
                (txn_begin s t E))
      as [(rows & _ & Hr) | (e & pre & bad & post & rows & _ & _ & _ & Hr)];
      rewrite Hr; discriminate.
  - rewrite delete_book_eq, E. discriminate.
Qed.

(** Once [DatabaseManager()] has run, [get_all_books] never raises:
    whatever calls follow, with whatever arguments and whether they
    returned or raised, it returns a list. *)
Theorem get_all_books_never_raises_once_initialized (s : store) (ops : list op) :
  exists t, list_all (run ops (after (init s))) = Ret t.
Proof.
  assert (V : view (run ops (after (init s))) <> None).
  { assert (V0 : view (after (init s)) <> None) by (rewrite init_eq; discriminate).
    revert V0. generalize (after (init s)) as s0.
    induction ops as [|o ops IH]; intros s0 V0; [assumption|].
    simpl. apply IH. now apply step_keeps_table. }
  rewrite list_all_eq. destruct (view (run ops (after (init s)))) as [t|].
  - now exists t.
  - now elim V.
Qed.

(** *** Records without an isbn *)

(** A tuple whose isbn is [None], with a title and an author, is accepted
    by an initialized store every time: inserted [n] times in a row it is
    listed [n] times, so the isbn column does not identify such records. *)
Theorem add_book_null_isbn_accepted_every_time
    (s : store) (t : table) (vt va vg vy : value) (n : nat) :
  list_all s = Ret t ->
  vt <> VNull ->
  va <> VNull ->
  result (add_book [vt; va; VNull; vg; vy] (add_book_times n [vt; va; VNull; vg; vy] s))
    = Ret true /\
  list_all (add_book_times n [vt; va; VNull; vg; vy] s)
    = Ret (t ++ repeat (mk_row vt va VNull vg vy) n).
Proof.
  intros L Ht Ha. apply is_null_false in Ht, Ha.
  assert (Step : forall s' t', view s' = Some t' ->
            add_book [vt; va; VNull; vg; vy] s' =
            (Ret true, mk_store (Some (t' ++ [mk_row vt va VNull vg vy])) None)).
  { intros s' t' V. rewrite add_book_eq, V. unfold Sqlite3.check_insert.
    now rewrite Ht, Ha. }
  assert (V : view (add_book_times n [vt; va; VNull; vg; vy] s)
              = Some (t ++ repeat (mk_row vt va VNull vg vy) n)).
  { induction n as [|n IH].
    - simpl. rewrite app_nil_r. now apply list_all_view.
    - unfold add_book_times in *. rewrite Nat.iter_succ, (Step _ _ IH).
      unfold after, view. cbn [snd txn file].
      rewrite <- app_assoc. now rewrite <- repeat_cons. }
  split.
  - rewrite (Step _ _ V). reflexivity.
  - now apply list_all_view.
Qed.

Lemma add_book_null_isbn_accepted_every_time_witness :
  result (add_book [VText "Beowulf"; VText "Anonymous"; VNull; VText "Epic"; VNull]
            (add_book_times 3 [VText "Beowulf"; VText "Anonymous"; VNull; VText "Epic"; VNull]
               empty_store)) = Ret true /\
  list_all (add_book_times 3 [VText "Beowulf"; VText "Anonymous"; VNull; VText "Epic"; VNull]
              empty_store)
    = Ret ([] ++ repeat (mk_row (VText "Beowulf") (VText "Anonymous") VNull (VText "Epic")
                                VNull) 3).
Proof.
  apply (add_book_null_isbn_accepted_every_time empty_store []
           (VText "Beowulf") (VText "Anonymous") (VText "Epic") VNull 3 eq_refl);
    discriminate.
Defined.

(** *** Deletion composed with insertion and with itself *)

Lemma filter_key_snoc (k : string) (t : table) (vt va vg vy : value) :
  filter (fun r => negb (isbn_is k r)) (t ++ [mk_row vt va (VText k) vg vy])
  = filter (fun r => negb (isbn_is k r)) t.
Proof.
  rewrite filter_app. simpl. unfold isbn_is at 2. simpl.
  rewrite String.eqb_refl. simpl. apply app_nil_r.
Qed.

Lemma has_isbn_filtered (k : string) (t : table) :
  has_isbn k (filter (fun r => negb (isbn_is k r)) t) = false.
Proof.
  apply has_isbn_false. intros r Hin Hk.
  apply filter_In in Hin as [_ Hn].
  apply isbn_is_true in Hk. rewrite Hk in Hn. discriminate.
Qed.

(** Replacing a record: on an initialized store, once [delete_book k] has
    run, [add_book] on any tuple with isbn [k], a title and an author
    returns [True], and the listing is the former one without the records
    of isbn [k], followed by the new record. *)
Theorem delete_book_frees_the_isbn
    (s : store) (t : table) (k : string) (vt va vg vy : value) :
  list_all s = Ret t ->
  vt <> VNull ->
  va <> VNull ->
  let s1 := after (delete_book k s) in
  result (add_book [vt; va; VText k; vg; vy] s1) = Ret true /\
  list_all (after (add_book [vt; va; VText k; vg; vy] s1))
    = Ret (filter (fun r => negb (isbn_is k r)) t ++ [mk_row vt va (VText k) vg vy]).
Proof.
  intros L Ht Ha s1. apply list_all_view in L. apply is_null_false in Ht, Ha.
  assert (E : s1 = mk_store (Some (filter (fun r => negb (isbn_is k r)) t)) None).
  { subst s1. now rewrite delete_book_eq, L. }
  rewrite E. clear E s1.
  rewrite add_book_eq. unfold view. cbn [txn file].
  unfold Sqlite3.check_insert. rewrite Ht, Ha, has_isbn_filtered. cbn [orb].
  split; [reflexivity|]. now apply list_all_view.
Qed.

Lemma delete_book_frees_the_isbn_witness :
  let dune := [VText "Dune"; VText "Frank Herbert"; VText "1234567890";
               VText "Sci-Fi"; VText "1965"] in
  let s := after (add_book dune empty_store) in
  let s1 := after (delete_book "1234567890" s) in
  result (add_book [VText "Dune Messiah"; VText "Frank Herbert"; VText "1234567890";
                    VNull; VText "1969"] s1) = Ret true /\
  list_all (after (add_book [VText "Dune Messiah"; VText "Frank Herbert";
                             VText "1234567890"; VNull; VText "1969"] s1))
    = Ret (filter (fun r => negb (isbn_is "1234567890" r))
                  [text_row "Dune" "Frank Herbert" "1234567890" "Sci-Fi" "1965"]
           ++ [mk_row (VText "Dune Messiah") (VText "Frank Herbert") (VText "1234567890")
                      VNull (VText "1969")]).
Proof.
  apply (delete_book_frees_the_isbn
           (after (add_book [VText "Dune"; VText "Frank Herbert"; VText "1234567890";
                             VText "Sci-Fi"; VText "1965"] empty_store))
           [text_row "Dune" "Frank Herbert" "1234567890" "Sci-Fi" "1965"]
           "1234567890" (VText "Dune Messiah") (VText "Frank Herbert") VNull (VText "1969")
           eq_refl); discriminate.
Defined.

(** Insertion undone: when no listed record has isbn [k], inserting a
    record with isbn [k] and then deleting [k] brings back the listing
    there was, and commits it. *)
Theorem add_book_then_delete_book_restores
    (s : store) (t : table) (k : string) (vt va vg vy : value) :
  list_all s = Ret t ->
  (forall r, In r t -> isbn r <> VText k) ->
  vt <> VNull ->
  va <> VNull ->
  let s1 := after (add_book [vt; va; VText k; vg; vy] s) in
  result (add_book [vt; va; VText k; vg; vy] s) = Ret true /\
  result (delete_book k s1) = Ret true /\
  list_all (after (delete_book k s1)) = Ret t /\
  file (after (delete_book k s1)) = Some t.
Proof.
  intros L A Ht Ha s1. apply list_all_view in L. apply is_null_false in Ht, Ha.
  pose proof (proj2 (has_isbn_false k t) A) as Hk.
  assert (E : add_book [vt; va; VText k; vg; vy] s =
              (Ret true, mk_store (Some (t ++ [mk_row vt va (VText k) vg vy])) None)).
  { rewrite add_book_eq, L. unfold Sqlite3.check_insert. now rewrite Ht, Ha, Hk. }
  assert (E1 : s1 = mk_store (Some (t ++ [mk_row vt va (VText k) vg vy])) None).
  { subst s1. now rewrite E. }
  rewrite E1, E. clear E1 s1.
  rewrite delete_book_eq. unfold view. cbn [txn file].
  rewrite filter_key_snoc, (filter_absent_key k t A).
  repeat split.
Qed.

Lemma add_book_then_delete_book_restores_witness :
  let dune := [VText "Dune"; VText "Frank Herbert"; VText "1234567890";
               VText "Sci-Fi"; VText "1965"] in
  let s1 := after (add_book dune empty_store) in
  result (add_book dune empty_store) = Ret true /\
  result (delete_book "1234567890" s1) = Ret true /\
  list_all (after (delete_book "1234567890" s1)) = Ret [] /\
  file (after (delete_book "1234567890" s1)) = Some [].
Proof.
  apply (add_book_then_delete_book_restores empty_store [] "1234567890"
           (VText "Dune") (VText "Frank Herbert") (VText "Sci-Fi") (VText "1965") eq_refl);
    [intros r [] | discriminate | discriminate].
Defined.

Lemma filter_swap (p q : row -> bool) (t : table) :
  filter p (filter q t) = filter q (filter p t).
Proof.
  induction t as [|r t IH]; simpl; [reflexivity|].
  destruct (q r) eqn:Q, (p r) eqn:P; simpl; rewrite ?Q, ?P, IH; reflexivity.
Qed.

(** Deletions commute and repeat harmlessly: deleting two isbns leaves the
    same store in either order, and deleting an isbn twice leaves the
    store the first deletion left. *)
Theorem delete_book_commutes_and_is_idempotent (s : store) (k1 k2 : string) :
  after (delete_book k2 (after (delete_book k1 s)))
    = after (delete_book k1 (after (delete_book k2 s))) /\
  after (delete_book k1 (after (delete_book k1 s))) = after (delete_book k1 s).
Proof.
  rewrite !(delete_book_eq _ s).
  destruct (view s) as [t|] eqn:V; unfold after; cbn [snd].
  - rewrite !delete_book_eq. unfold view. cbn [txn file snd]. split.
    + f_equal. f_equal. apply filter_swap.
    + f_equal. f_equal. apply filter_absent_key.
      apply has_isbn_false, has_isbn_filtered.
  - rewrite !delete_book_eq, V. split; reflexivity.
Qed.

(** *** The bulk insertion against single insertions *)

Lemma insert_steps_returns (batch : list (list value)) :
  forall (s s' : store) (t : table),
    txn s = Some t ->
    Sqlite3.insert_steps batch s = (Ret tt, s') ->
    exists rows, s' = mk_store (file s) (Some (t ++ rows)) /\ accepted t batch rows.
Proof.
  induction batch as [|p rest IH]; intros s s' t T R.
  - exists []. simpl in *. unfold ret in R. injection R as <-.
    split; [now apply open_store_eta | exact I].
  - assert (V : view s = Some t) by (unfold view; now rewrite T).
    simpl in R. unfold bind, Sqlite3.insert_step in R. rewrite V in R.
    destruct (Sqlite3.check_insert t p) as [e|r] eqn:C; [discriminate|].
    destruct (IH (mk_store (file s) (Some (t ++ [r]))) s' (t ++ [r]) eq_refl R)
      as (rows & -> & Hacc).
    exists (r :: rows). simpl. rewrite <- app_assoc. simpl.
    split; [reflexivity | now split].
Qed.

Lemma accepted_run_inserts (batch : list (list value)) :
  forall (s : store) (t : table) (rows : list row),
    view s = Some t ->
    batch <> [] ->
    accepted t batch rows ->
    run (map Insert batch) s = mk_store (Some (t ++ rows)) None.
Proof.
  induction batch as [|p rest IH]; intros s t rows V Hne Hacc; [now elim Hne|].
  destruct rows as [|r rows]; [now elim Hacc|].
  destruct Hacc as [C Hacc].
  simpl. rewrite add_book_eq, V, C. unfold after. cbn [snd].
  destruct rest as [|p' rest'].
  - destruct rows; [reflexivity | now elim Hacc].
  - rewrite (IH (mk_store (Some (t ++ [r])) None) (t ++ [r]) rows eq_refl);
      [|discriminate|assumption].
    now rewrite <- app_assoc.
Qed.

(** A batch accepted as a whole is the same as single insertions: when
    [insert_many] returns on a non-empty batch, it leaves exactly the
    store that [add_book] on each tuple of the batch, in order, leaves. *)
Theorem insert_many_equals_repeated_add_book
    (s : store) (t : table) (batch : list (list value)) :
  list_all s = Ret t ->
  batch <> [] ->
  result (insert_many batch s) = Ret tt ->
  run (map Insert batch) s = after (insert_many batch s).
Proof.
  intros L Hne R. apply list_all_view in L.
  unfold insert_many, bind, Sqlite3.executemany_insert in *. rewrite L in *.
  destruct (Sqlite3.insert_steps batch (Sqlite3.begin s)) as [[[]|e] s1] eqn:E;
    [|discriminate].
  destruct (insert_steps_returns batch _ _ t (txn_begin s t L) E) as (rows & -> & Hacc).
  unfold after, Sqlite3.commit, view. cbn [snd txn file].
  now apply accepted_run_inserts.
Qed.

Lemma insert_many_equals_repeated_add_book_witness :
  let dune := [VText "Dune"; VText "Frank Herbert"; VText "1234567890";
               VText "Sci-Fi"; VText "1965"] in
  let emma := [VText "Emma"; VText "Jane Austen"; VText "0987654321";
               VText "Novel"; VText "1815"] in
  run (map Insert [dune; emma]) empty_store = after (insert_many [dune; emma] empty_store).
Proof.
  apply (insert_many_equals_repeated_add_book empty_store []
           [[VText "Dune"; VText "Frank Herbert"; VText "1234567890";
             VText "Sci-Fi"; VText "1965"];
            [VText "Emma"; VText "Jane Austen"; VText "0987654321";
             VText "Novel"; VText "1815"]] eq_refl);
    [discriminate | reflexivity].
Defined.

(** What a failed batch leaves behind. When [insert_many] raises on an
    initialized store, the tuples before the rejected one are listed but
    not in the file. Opening the store again ([connect], [create_tables])
    forgets them; but the next [delete_book], or the next [add_book] that
    succeeds, commits them with its own change. *)
Theorem failed_batch_rows_wait_for_the_next_commit
    (s : store) (t : table) (batch : list (list value)) (e : sqlite_error) :
  list_all s = Ret t ->
  result (insert_many batch s) = Raise e ->
  let s' := after (insert_many batch s) in
  exists rows bad post,
    batch = map row_tuple rows ++ bad :: post /\
    list_all s' = Ret (t ++ rows) /\
    file s' = file s /\
    list_all (after (init s')) = Ret (stored s) /\
    (forall k, file (after (delete_book k s'))
               = Some (filter (fun r => negb (isbn_is k r)) (t ++ rows))) /\
    (forall book_data,
        result (add_book book_data s') = Ret true ->
        exists r, file (after (add_book book_data s')) = Some ((t ++ rows) ++ [r])).
Proof.
  intros L R s'. apply list_all_view in L.
  assert (E : exists rows bad post,
             batch = map row_tuple rows ++ bad :: post /\
             s' = mk_store (file s) (Some (t ++ rows))).
  { subst s'. unfold insert_many, bind, Sqlite3.executemany_insert in *. rewrite L in *.
    destruct (insert_steps_outcome batch (Sqlite3.begin s) t (txn_begin s t L))
      as [(rows & Hm & Hr) | (e' & pre & bad & post & rows & Hb & Hm & Hc & Hr)];
      rewrite Hr in *; [discriminate|].
    exists rows, bad, post. rewrite Hm, file_begin. now split. }
  destruct E as (rows & bad & post & Hb & ->).
  exists rows, bad, post.
  split; [assumption|].
  split; [now apply list_all_view|].
  split; [reflexivity|].
  split; [now rewrite init_eq|].
  split.
  - intros k. now rewrite delete_book_eq.
  - intros bd. rewrite add_book_eq. unfold view, result, after. cbn [txn file].
    destruct (Sqlite3.check_insert (t ++ rows) bd) as [e'|r]; cbn [fst snd];
      [discriminate|].
    intros _. now exists r.
Qed.

Lemma failed_batch_rows_wait_for_the_next_commit_witness :
  let dune := [VText "Dune"; VText "Frank Herbert"; VText "1234567890";
               VText "Sci-Fi"; VText "1965"] in
  let s' := after (insert_many [dune; dune] empty_store) in
  exists rows bad post,
    [dune; dune] = map row_tuple rows ++ bad :: post /\
    list_all s' = Ret ([] ++ rows) /\
    file s' = file empty_store /\
    list_all (after (init s')) = Ret (stored empty_store) /\
    (forall k, file (after (delete_book k s'))
               = Some (filter (fun r => negb (isbn_is k r)) ([] ++ rows))) /\
    (forall book_data,
        result (add_book book_data s') = Ret true ->
        exists r, file (after (add_book book_data s')) = Some (([] ++ rows) ++ [r])).
Proof.
  exact (failed_batch_rows_wait_for_the_next_commit empty_store []
           [[VText "Dune"; VText "Frank Herbert"; VText "1234567890";
             VText "Sci-Fi"; VText "1965"];
            [VText "Dune"; VText "Frank Herbert"; VText "1234567890";
             VText "Sci-Fi"; VText "1965"]]
           IntegrityError eq_refl eq_refl).
Defined.

(** *** One record per isbn *)

Lemma keyed_table_split (t : table) (r : row) (k : string) :
  keys_unique t ->
  In r t ->
  isbn r = VText k ->
  exists l1 l2,
    t = l1 ++ r :: l2 /\
    filter (fun r' => negb (isbn_is k r')) t = l1 ++ l2.
Proof.
  intros [Hnd _] Hin Hk.
  destruct (in_split r t Hin) as (l1 & l2 & ->).
  exists l1, l2. split; [reflexivity|].
  rewrite map_app in Hnd. simpl in Hnd. apply NoDup_remove_2 in Hnd.
  rewrite filter_app. simpl.
  replace (isbn_is k r) with true by (symmetry; now apply isbn_is_true).
  simpl. f_equal; apply filter_absent_key; intros r' Hr' E; apply Hnd;
    apply in_or_app; [left | right]; apply in_map_iff; exists r'; split;
    congruence.
Qed.

(** In a store reached from a fresh location by calls whose inserted
    tuples all supply an isbn, [delete_book] on the isbn of a listed
    record removes that one record and nothing else: the listing loses
    exactly one entry. *)
Theorem delete_book_removes_one_record
    (ops : list op) (t : table) (r : row) (k : string) :
  Forall well_keyed ops ->
  list_all (run ops fresh) = Ret t ->
  In r t ->
  isbn r = VText k ->
  exists l1 l2,
    t = l1 ++ r :: l2 /\
    list_all (after (delete_book k (run ops fresh))) = Ret (l1 ++ l2) /\
    S (length (l1 ++ l2)) = length t.
Proof.
  intros F L Hin Hk.
  assert (I : store_inv (run ops fresh)).
  { apply run_inv; [assumption|]. split; discriminate. }
  apply list_all_view in L.
  destruct (keyed_table_split t r k (store_inv_view _ _ I L) Hin Hk)
    as (l1 & l2 & Ht & Hf).
  exists l1, l2. split; [assumption|].
  rewrite delete_book_eq, L. unfold after. cbn [snd]. split.
  - apply list_all_view. unfold view. cbn [txn]. now rewrite Hf.
  - rewrite Ht, !length_app. simpl. lia.
Qed.

Lemma delete_book_removes_one_record_witness :
  let dune := text_row "Dune" "Frank Herbert" "1234567890" "Sci-Fi" "1965" in
  let emma := text_row "Emma" "Jane Austen" "0987654321" "Novel" "1815" in
  let ops := [Initialize; Insert (row_tuple dune); Insert (row_tuple emma)] in
  exists l1 l2,
    [dune; emma] = l1 ++ emma :: l2 /\
    list_all (after (delete_book "0987654321" (run ops fresh))) = Ret (l1 ++ l2) /\
    S (length (l1 ++ l2)) = length [dune; emma].
Proof.
  apply (delete_book_removes_one_record
           [Initialize;
            Insert (row_tuple (text_row "Dune" "Frank Herbert" "1234567890" "Sci-Fi" "1965"));
            Insert (row_tuple (text_row "Emma" "Jane Austen" "0987654321" "Novel" "1815"))]
           [text_row "Dune" "Frank Herbert" "1234567890" "Sci-Fi" "1965";
            text_row "Emma" "Jane Austen" "0987654321" "Novel" "1815"]
           (text_row "Emma" "Jane Austen" "0987654321" "Novel" "1815") "0987654321").
  - repeat constructor; discriminate.
  - reflexivity.
  - right. now left.
  - reflexivity.
Defined.

(** *** When [add_sample_books] returns *)

Lemma accepted_samples_distinct (batch : list (list value)) :
  forall (t : table) (rows : list row),
    Forall (fun b => exists y, sample_ok y b) batch ->
    accepted t batch rows ->
    NoDup (map tuple_isbn batch) /\
    (forall b r, In b batch -> In r t -> isbn r <> tuple_isbn b).
Proof.
  induction batch as [|p rest IH]; intros t rows F Hacc.
  - split; [constructor | intros b r []].
  - destruct rows as [|r0 rows]; [now elim Hacc|].
    destruct Hacc as [C Hacc]. inversion F as [|? ? Hp Hrest]; subst.
    destruct Hp as (y & a & b & k & c & d & n & -> & _).
    assert (A : has_isbn k t = false).
    { unfold Sqlite3.check_insert in C. simpl in C.
      destruct (has_isbn k t); [discriminate | reflexivity]. }
    assert (R0 : isbn r0 = VText k).
    { apply check_insert_inr in C. now rewrite <- tuple_isbn_row, C. }
    destruct (IH (t ++ [r0]) rows Hrest Hacc) as [Hnd Hfresh].
    split.
    + simpl. constructor; [|assumption].
      intros Hin. apply in_map_iff in Hin as (b' & E & Hb').
      apply (Hfresh b' r0 Hb'); [apply in_or_app; right; now left|].
      unfold tuple_isbn in *. simpl in E. congruence.
    + intros b' r [<- | Hb'] Hr.
      * unfold tuple_isbn. simpl. now apply (has_isbn_false k t).
      * apply (Hfresh b' r Hb'). apply in_or_app. now left.
Qed.

Lemma samples_ok (current_year : Z) (g : rng) :
  Forall (fun b => exists y, sample_ok y b) (_generate_sample_data current_year g).
Proof.
  destruct (sample_books_spec 50 current_year g) as [_ Hok].
  eapply Forall_impl; [|exact Hok]. intros b Hb. now exists current_year.
Qed.

(** On an initialized store, [add_sample_books] returns exactly when the
    fifty generated isbns are pairwise distinct and none of them is the
    isbn of a listed record; otherwise it raises, and what it raises is
    IntegrityError. *)
Theorem add_sample_books_returns_iff
    (s : store) (t : table) (current_year : Z) (g : rng) :
  list_all s = Ret t ->
  let batch := _generate_sample_data current_year g in
  (result (add_sample_books current_year g s) = Ret tt <->
   NoDup (map tuple_isbn batch) /\
   (forall b r, In b batch -> In r t -> isbn r <> tuple_isbn b)) /\
  (result (add_sample_books current_year g s) = Ret tt \/
   result (add_sample_books current_year g s) = Raise IntegrityError).
Proof.
  intros L batch. pose proof (samples_ok current_year g) as Hok. fold batch in Hok.
  unfold add_sample_books. fold batch.
  split; [split|].
  - intros R. apply list_all_view in L.
    unfold insert_many, bind, Sqlite3.executemany_insert in R. rewrite L in R.
    destruct (Sqlite3.insert_steps batch (Sqlite3.begin s)) as [[[]|e] s1] eqn:E;
      [|discriminate].
    destruct (insert_steps_returns batch _ _ t (txn_begin s t L) E) as (rows & _ & Hacc).
    now apply (accepted_samples_distinct batch t rows).
  - intros [Hnd Hfresh].
    destruct (insert_many_distinct_keys s t batch L Hok Hnd Hfresh) as (rows & _ & Hr).
    now rewrite Hr.
  - apply list_all_view in L.
    unfold insert_many, bind, Sqlite3.executemany_insert. rewrite L.
    destruct (insert_steps_outcome batch (Sqlite3.begin s) t (txn_begin s t L))
      as [(rows & Hm & Hr) | (e & pre & bad & post & rows & Hb & Hm & Hc & Hr)];
      rewrite Hr; [now left | right].
    rewrite Forall_forall in Hok.
    destruct (Hok bad) as (y & a & b & k & c & d & n & -> & _).
    { rewrite Hb. apply in_or_app. right. now left. }
    unfold Sqlite3.check_insert in Hc. simpl in Hc.
    destruct (has_isbn k (t ++ rows)); [|discriminate].
    injection Hc as <-. reflexivity.
Qed.

Lemma add_sample_books_returns_iff_witness :
  (result (add_sample_books 2026 counting_tape empty_store) = Ret tt <->
   NoDup (map tuple_isbn (_generate_sample_data 2026 counting_tape)) /\
   (forall b r, In b (_generate_sample_data 2026 counting_tape) -> In r [] ->
                isbn r <> tuple_isbn b)) /\
  (result (add_sample_books 2026 counting_tape empty_store) = Ret tt \/
   result (add_sample_books 2026 counting_tape empty_store) = Raise IntegrityError).
Proof.
  exact (add_sample_books_returns_iff empty_store [] 2026 counting_tape eq_refl).
Defined.

(** *** What the generator draws from *)

Lemma choice_in (seq : list string) (g : rng) :
  seq <> [] -> In (fst (choice seq g)) seq.
Proof.
  intros Hne. unfold choice, draw. simpl.
  apply nth_In. apply Nat.mod_upper_bound.
  destruct seq; [now elim Hne | discriminate].
Qed.

(** Every generated record has one of the ten titles followed by a space
    and a number of 1 .. 5, one of the eight authors and one of the seven
    genres. *)
Theorem generated_fields_come_from_the_lists (current_year : Z) (g : rng) :
  Forall (fun b =>
            exists t n a i ge y,
              b = [VText (String.append t (String.append " " (str n)));
                   VText a; VText i; VText ge; VText y] /\
              In t titles /\ (1 <= n <= 5)%Z /\ In a authors /\ In ge genres)
         (_generate_sample_data current_year g).
Proof.
  unfold _generate_sample_data. generalize 50%nat as m. intros m. revert g.
  induction m as [|m IH]; intros g; cbn [sample_books]; [constructor|].
  destruct (sample_book current_year g) as [b g'] eqn:E.
  constructor; [|apply IH].
  unfold sample_book in E.
  pose proof (choice_in titles g ltac:(discriminate)) as Ht.
  destruct (choice titles g) as [t g1].
  pose proof (randint_range 1 5 g1 ltac:(lia)) as Hn.
  destruct (randint 1 5 g1) as [n g2].
  pose proof (choice_in authors g2 ltac:(discriminate)) as Ha.
  destruct (choice authors g2) as [a g3].
  destruct (random_digits 10 g3) as [i g4].
  pose proof (choice_in genres g4 ltac:(discriminate)) as Hg.
  destruct (choice genres g4) as [ge g5].
  destruct (randint (current_year - 20) current_year g5) as [y g6].
  injection E as <- _.
  exists t, n, a, i, ge, (str y). cbn [fst] in *. repeat split; auto; lia.
Qed.

(** ** The window *)

Lemma load_books_eq (w : window) (t : table) :
  list_all (db w) = Ret t ->
  LibraryManagementSystem.load_books w
  = (UiRet tt, mk_window (db w) (inputs w) (render t)).
Proof.
  intros L. apply list_all_view in L.
  unfold LibraryManagementSystem.load_books, ui_bind, on_db, get_all_books,
    Sqlite3.execute_select_all.
  now rewrite L.
Qed.

(** [add_book] of the window in one step, on an initialized store. *)
Lemma window_add_book_eq (w : window) (t : table) :
  list_all (db w) = Ret t ->
  LibraryManagementSystem.add_book w =
  match Sqlite3.check_insert t
          [ VText (title_text (inputs w)); VText (author_text (inputs w));
            VText (isbn_text (inputs w)); VText (genre_text (inputs w));
            VText (year_text (inputs w)) ] with
  | inl _ => (UiRet tt, mk_window (Sqlite3.begin (db w)) (inputs w) (cells w))
  | inr r => (UiRet tt, mk_window (mk_store (Some (t ++ [r])) None)
                                  (mk_form "" "" "" "" "") (render (t ++ [r])))
  end.
Proof.
  intros L. apply list_all_view in L.
  unfold LibraryManagementSystem.add_book, ui_bind, on_db.
  rewrite add_book_eq, L.
  destruct (Sqlite3.check_insert t _) as [e|r]; [reflexivity|].
  cbn [db inputs cells].
  rewrite (load_books_eq _ (t ++ [r])); [reflexivity|].
  now apply list_all_view.
Qed.

(** Pressing Add on an initialized store never raises. If no listed
    record has the isbn typed, the record made of the five texts is
    committed, the table is reloaded with it in the last row, and the
    fields are emptied. If some listed record has it, nothing is said:
    the fields keep their texts, the table keeps its rows, and the
    listing and the file are as before. *)
Theorem window_add_book_appends_or_keeps_the_form (w : window) (t : table) :
  list_all (db w) = Ret t ->
  let f := inputs w in
  let r := text_row (title_text f) (author_text f) (isbn_text f)
                    (genre_text f) (year_text f) in
  ((forall r', In r' t -> isbn r' <> VText (isbn_text f)) ->
   exists d,
     LibraryManagementSystem.add_book w
     = (UiRet tt, mk_window d (mk_form "" "" "" "" "") (render (t ++ [r]))) /\
     list_all d = Ret (t ++ [r]) /\
     file d = Some (t ++ [r])) /\
  ((exists r', In r' t /\ isbn r' = VText (isbn_text f)) ->
   exists d,
     LibraryManagementSystem.add_book w = (UiRet tt, mk_window d f (cells w)) /\
     list_all d = Ret t /\
     file d = file (db w)).
Proof.
  intros L f r. rewrite (window_add_book_eq w t L). fold f.
  unfold Sqlite3.check_insert. cbn [is_null orb].
  split.
  - intros A. apply has_isbn_false in A. rewrite A.
    exists (mk_store (Some (t ++ [r])) None).
    split; [reflexivity|]. split; [now apply list_all_view | reflexivity].
  - intros A. apply has_isbn_true in A. rewrite A.
    exists (Sqlite3.begin (db w)).
    split; [reflexivity|]. split; [|apply file_begin].
    apply list_all_view. rewrite view_begin. now apply list_all_view.
Qed.

Lemma window_add_book_appends_or_keeps_the_form_witness :
  let dune := mk_form "Dune" "Frank Herbert" "1234567890" "Sci-Fi" "1965" in
  let w := mk_window empty_store dune [] in
  let r := text_row "Dune" "Frank Herbert" "1234567890" "Sci-Fi" "1965" in
  ((forall r', In r' [] -> isbn r' <> VText "1234567890") ->
   exists d,
     LibraryManagementSystem.add_book w
     = (UiRet tt, mk_window d (mk_form "" "" "" "" "") (render ([] ++ [r]))) /\
     list_all d = Ret ([] ++ [r]) /\
     file d = Some ([] ++ [r])) /\
  ((exists r', In r' [] /\ isbn r' = VText "1234567890") ->
   exists d,
     LibraryManagementSystem.add_book w = (UiRet tt, mk_window d dune []) /\
     list_all d = Ret [] /\
     file d = file empty_store).
Proof.
  exact (window_add_book_appends_or_keeps_the_form
           (mk_window empty_store
                      (mk_form "Dune" "Frank Herbert" "1234567890" "Sci-Fi" "1965") [])
           [] eq_refl).
Defined.

(** *** The table against the store *)

Lemma window_delete_book_eq (w : window) (t : table) (row : Z) (k : string) :
  list_all (db w) = Ret t ->
  (0 <= row)%Z ->
  LibraryManagementSystem.item_text row 2 w = (UiRet k, w) ->
  LibraryManagementSystem.delete_book row w
  = (UiRet tt,
     mk_window (mk_store (Some (filter (fun r => negb (isbn_is k r)) t)) None)
               (inputs w)
               (render (filter (fun r => negb (isbn_is k r)) t))).
Proof.
  intros L Hrow Hk. apply list_all_view in L.
  unfold LibraryManagementSystem.delete_book.
  replace (0 <=? row)%Z with true by (symmetry; now apply Z.leb_le).
  unfold ui_bind at 1. rewrite Hk.
  unfold ui_bind, on_db. rewrite delete_book_eq, L. cbn [db inputs cells].
  rewrite (load_books_eq _ (filter (fun r => negb (isbn_is k r)) t));
    [reflexivity | now apply list_all_view].
Qed.

Lemma window_add_sample_books_eq (w : window) (current_year : Z) (g : rng) :
  LibraryManagementSystem.add_sample_books current_year g w =
  match add_sample_books current_year g (db w) with
  | (Ret _, d) => LibraryManagementSystem.load_books (mk_window d (inputs w) (cells w))
  | (Raise e, d) => (UiRaise (SqliteError e), mk_window d (inputs w) (cells w))
  end.
Proof.
  unfold LibraryManagementSystem.add_sample_books, ui_bind, on_db.
  now destruct (add_sample_books current_year g (db w)) as [[[]|e] d].
Qed.

Lemma item_text_keeps_window (row : Z) (col : nat) (w w' : window) (k : string) :
  LibraryManagementSystem.item_text row col w = (UiRet k, w') -> w' = w.
Proof.
  unfold LibraryManagementSystem.item_text.
  destruct (nth_error (cells w) (Z.to_nat row)) as [r|]; [|discriminate].
  destruct (nth_error r col); [|discriminate].
  now intros [= _ <-].
Qed.

Lemma act_keeps_listing_shown (a : action) (w w' : window) :
  shows_listing w -> act a w = (UiRet tt, w') -> shows_listing w'.
Proof.
  intros (t & L & C) R.
  destruct a as [f| | |row|y g]; simpl in R.
  - injection R as <-. now exists t.
  - rewrite (window_add_book_eq w t L) in R.
    destruct (Sqlite3.check_insert t _) as [e|r]; injection R as <-.
    + exists t. split; [|assumption]. cbn [db].
      apply list_all_view. rewrite view_begin. now apply list_all_view.
    + exists (t ++ [r]). split; [now apply list_all_view | reflexivity].
  - unfold LibraryManagementSystem.clear_fields in R. injection R as <-. now exists t.
  - destruct (Z.leb_spec 0 row) as [Hrow | Hrow].
    + destruct (LibraryManagementSystem.item_text row 2 w) as [[k|e] w1] eqn:Ek.
      * pose proof (item_text_keeps_window _ _ _ _ _ Ek) as ->.
        rewrite (window_delete_book_eq w t row k L Hrow Ek) in R.
        injection R as <-.
        exists (filter (fun r => negb (isbn_is k r)) t).
        split; [now apply list_all_view | reflexivity].
      * unfold LibraryManagementSystem.delete_book in R.
        replace (0 <=? row)%Z with true in R by (symmetry; now apply Z.leb_le).
        unfold ui_bind at 1 in R. rewrite Ek in R. discriminate.
    + unfold LibraryManagementSystem.delete_book in R.
      replace (0 <=? row)%Z with false in R by (symmetry; apply Z.leb_gt; lia).
      injection R as <-. now exists t.
  - rewrite window_add_sample_books_eq in R.
    destruct (add_sample_books y g (db w)) as [[[]|e] d] eqn:E; [|discriminate].
    assert (V : view d <> None).
    { change d with (after (Ret tt, d)). rewrite <- E.
      apply (step_keeps_table (AddSampleBooks y g) (db w)).
      apply list_all_view in L. congruence. }
    destruct (view d) as [t'|] eqn:V'; [clear V | now elim V].
    rewrite (load_books_eq _ t') in R by (now apply list_all_view).
    injection R as <-. exists t'. split; [now apply list_all_view | reflexivity].
Qed.

Lemma window_init_eq (location : store) :
  LibraryManagementSystem.init location
  = (UiRet tt, mk_window (mk_store (Some (stored location)) None)
                         (mk_form "" "" "" "" "") (render (stored location))).
Proof.
  unfold LibraryManagementSystem.init, ui_bind, on_db. cbn [db inputs cells].
  rewrite init_eq.
  now rewrite (load_books_eq _ (stored location)).
Qed.

(** When constructing the window returns, the table shows row for row
    what [get_all_books] returns, and it still does after any series of
    actions none of which raised. *)
Theorem table_shows_the_listing_once_open
    (location : store) (w0 : window) (acts : list action) (w : window) :
  LibraryManagementSystem.init location = (UiRet tt, w0) ->
  use acts w0 = Some w ->
  shows_listing w0 /\ shows_listing w.
Proof.
  intros O U.
  assert (S0 : shows_listing w0).
  { rewrite window_init_eq in O. injection O as <-.
    exists (stored location). split; reflexivity. }
  split; [assumption|].
  clear O. revert w0 S0 U.
  induction acts as [|a acts IH]; intros w0 S0 U; simpl in U.
  - now injection U as <-.
  - destruct (act a w0) as [[[]|e] w1] eqn:E; [|discriminate].
    apply (IH w1); [|assumption].
    now apply (act_keeps_listing_shown a w0 w1).
Qed.

Lemma table_shows_the_listing_once_open_witness :
  let w0 := mk_window empty_store (mk_form "" "" "" "" "") [] in
  let w := mk_window
             (mk_store (Some [text_row "Dune" "Frank Herbert" "1234567890" "Sci-Fi" "1965"])
                       (Some [text_row "Dune" "Frank Herbert" "1234567890" "Sci-Fi" "1965"]))
             (mk_form "" "" "" "" "")
             [["Dune"; "Frank Herbert"; "1234567890"; "Sci-Fi"; "1965"]] in
  shows_listing w0 /\ shows_listing w.
Proof.
  apply (table_shows_the_listing_once_open fresh
           (mk_window empty_store (mk_form "" "" "" "" "") [])
           [TypeIn (mk_form "Dune" "Frank Herbert" "1234567890" "Sci-Fi" "1965");
            PressAdd;
            TypeIn (mk_form "Emma" "Jane Austen" "1234567890" "Novel" "1815");
            PressAdd; PressClear]
           (mk_window
              (mk_store (Some [text_row "Dune" "Frank Herbert" "1234567890" "Sci-Fi" "1965"])
                        (Some [text_row "Dune" "Frank Herbert" "1234567890" "Sci-Fi" "1965"]))
              (mk_form "" "" "" "" "")
              [["Dune"; "Frank Herbert"; "1234567890"; "Sci-Fi"; "1965"]])).
  - reflexivity.
  - vm_compute. reflexivity.
Defined.

Lemma act_keeps_keys (a : action) (w w' : window) :
  shows_listing w ->
  store_inv (db w) ->
  act a w = (UiRet tt, w') ->
  store_inv (db w').
Proof.
  intros (t & L & C) I R.
  pose proof (store_inv_view _ _ I (proj1 (list_all_view _ _) L)) as K.
  destruct a as [f| | |row|y g]; simpl in R.
  - now injection R as <-.
  - rewrite (window_add_book_eq w t L) in R.
    destruct (Sqlite3.check_insert t _) as [e|r] eqn:E; injection R as <-; cbn [db].
    + now apply begin_inv.
    + apply store_inv_intro; [|discriminate].
      intros t' [= <-]. eapply (keys_unique_snoc t); [exact K | | exact E].
      unfold supplies_isbn. simpl. discriminate.
  - unfold LibraryManagementSystem.clear_fields in R. now injection R as <-.
  - destruct (Z.leb_spec 0 row) as [Hrow | Hrow].
    + destruct (LibraryManagementSystem.item_text row 2 w) as [[k|e] w1] eqn:Ek.
      * pose proof (item_text_keeps_window _ _ _ _ _ Ek) as ->.
        rewrite (window_delete_book_eq w t row k L Hrow Ek) in R.
        injection R as <-. cbn [db].
        apply store_inv_intro; [|discriminate].
        intros t' [= <-]. now apply keys_unique_filter.
      * unfold LibraryManagementSystem.delete_book in R.
        replace (0 <=? row)%Z with true in R by (symmetry; now apply Z.leb_le).
        unfold ui_bind at 1 in R. rewrite Ek in R. discriminate.
    + unfold LibraryManagementSystem.delete_book in R.
      replace (0 <=? row)%Z with false in R by (symmetry; apply Z.leb_gt; lia).
      now injection R as <-.
  - rewrite window_add_sample_books_eq in R.
    pose proof (step_inv (AddSampleBooks y g) (db w) Logic.I I) as I'. simpl in I'.
    destruct (add_sample_books y g (db w)) as [[[]|e] d] eqn:E; [|discriminate].
    unfold after in I'. cbn [snd] in I'.
    unfold LibraryManagementSystem.load_books, ui_bind, on_db in R.
    cbn [db inputs cells] in R.
    pose proof (get_all_books_read_only d) as RO. unfold after in RO.
    destruct (get_all_books d) as [[books|e] d']; cbn [snd] in RO; subst d';
      [|discriminate].
    now injection R as <-.
Qed.

Lemma isbn_cells_of_render (t : table) :
  map (fun r => nth 2 r "") (render t) = map (fun b => py_str (isbn b)) t.
Proof. unfold render. rewrite map_map. reflexivity. Qed.

Lemma keyed_isbn_cells_distinct (t : table) :
  keys_unique t -> NoDup (map (fun b => py_str (isbn b)) t).
Proof.
  intros [Hnd Hall]. induction t as [|b t IH]; simpl; [constructor|].
  simpl in Hnd. apply NoDup_cons_iff in Hnd as [Hn Hd].
  inversion Hall as [|? ? Hb Ht]; subst.
  constructor; [|now apply IH].
  intros Hin. apply Hn. apply in_map_iff in Hin as (b' & E & Hb').
  apply in_map_iff. exists b'. split; [|assumption].
  rewrite Forall_forall in Ht. specialize (Ht b' Hb').
  destruct (isbn b) as [|k]; [now elim Hb|].
  destruct (isbn b') as [|k']; [now elim Ht|].
  simpl in E. now subst.
Qed.

(** No isbn twice in the table. Let the database file be in any state
    the manager can have brought it to, by calls whose inserted tuples
    all supply an isbn; open the window on it and act on it in any way,
    no action raising: the isbn column of the table (column 2) never shows
    the same text in two rows. *)
Theorem table_never_shows_an_isbn_twice
    (ops : list op) (acts : list action) (w : window) :
  Forall well_keyed ops ->
  use acts (snd (LibraryManagementSystem.init (run ops fresh))) = Some w ->
  NoDup (map (fun r => nth 2 r "") (cells w)).
Proof.
  intros F U. rewrite window_init_eq in U. cbn [snd] in U.
  assert (I0 : store_inv (run ops fresh)).
  { apply run_inv; [assumption|]. split; discriminate. }
  assert (G : shows_listing w /\ store_inv (db w)).
  { set (w0 := mk_window (mk_store (Some (stored (run ops fresh))) None)
                         (mk_form "" "" "" "" "") (render (stored (run ops fresh)))) in U.
    assert (G0 : shows_listing w0 /\ store_inv (db w0)).
    { split.
      - exists (stored (run ops fresh)). split; reflexivity.
      - apply store_inv_intro; [|discriminate].
        intros t [= <-]. unfold stored.
        destruct (file (run ops fresh)) as [t|] eqn:E;
          [now apply (proj1 I0) | apply keys_unique_nil]. }
    clearbody w0. revert w0 G0 U.
    induction acts as [|a acts IH]; intros w0 [S0 K0] U; simpl in U.
    - injection U as <-. now split.
    - destruct (act a w0) as [[[]|e] w1] eqn:E; [|discriminate].
      apply (IH w1); [|assumption]. split.
      + now apply (act_keeps_listing_shown a w0 w1).
      + now apply (act_keeps_keys a w0 w1). }
  destruct G as [(t & L & C) I].
  rewrite C, isbn_cells_of_render.
  apply keyed_isbn_cells_distinct.
  apply (store_inv_view _ _ I). now apply list_all_view.
Qed.

Lemma table_never_shows_an_isbn_twice_witness :
  NoDup (map (fun r => nth 2 r "")
             [["Dune"; "Frank Herbert"; "1234567890"; "Sci-Fi"; "1965"];
              ["Emma"; "Jane Austen"; "0987654321"; "Novel"; "1815"]]).
Proof.
  apply (table_never_shows_an_isbn_twice
           [Initialize;
            Insert [VText "Dune"; VText "Frank Herbert"; VText "1234567890";
                    VText "Sci-Fi"; VText "1965"]]
           [TypeIn (mk_form "Emma" "Jane Austen" "1234567890" "Novel" "1815");
            PressAdd;
            TypeIn (mk_form "Emma" "Jane Austen" "0987654321" "Novel" "1815");
            PressAdd; PressDelete (-1)]
           (mk_window (mk_store
                         (Some [text_row "Dune" "Frank Herbert" "1234567890" "Sci-Fi" "1965";
                                text_row "Emma" "Jane Austen" "0987654321" "Novel" "1815"])
                         None)
                      (mk_form "" "" "" "" "")
                      [["Dune"; "Frank Herbert"; "1234567890"; "Sci-Fi"; "1965"];
                       ["Emma"; "Jane Austen"; "0987654321"; "Novel"; "1815"]])).
  - repeat constructor; discriminate.
  - vm_compute. reflexivity.
Defined.

(** *** Deleting the current row *)

Lemma item_text_of_render (t : table) (i : nat) (r : row) (w : window) :
  cells w = render t ->
  nth_error t i = Some r ->
  LibraryManagementSystem.item_text (Z.of_nat i) 2 w = (UiRet (py_str (isbn r)), w).
Proof.
  intros C Hi. unfold LibraryManagementSystem.item_text.
  rewrite Nat2Z.id, C. unfold render. rewrite nth_error_map, Hi. reflexivity.
Qed.

(** Pressing Delete while no row is current does nothing. While row [i]
    is current in a table that shows the listing, and the record there
    has the isbn [k], it returns, the records of isbn [k] are deleted and
    the deletion committed, and the table is reloaded without them; the
    records of another isbn stay, and the fields keep their texts. *)
Theorem window_delete_book_removes_the_current_record
    (w : window) (t : table) (i : nat) (r : row) (k : string) :
  list_all (db w) = Ret t ->
  cells w = render t ->
  nth_error t i = Some r ->
  isbn r = VText k ->
  (forall row, (row < 0)%Z -> LibraryManagementSystem.delete_book row w = (UiRet tt, w)) /\
  exists t',
    LibraryManagementSystem.delete_book (Z.of_nat i) w
    = (UiRet tt, mk_window (mk_store (Some t') None) (inputs w) (render t')) /\
    ~ In r t' /\
    (forall r', isbn r' <> VText k -> (In r' t' <-> In r' t)).
Proof.
  intros L C Hi Hk. split.
  - intros row Hrow. unfold LibraryManagementSystem.delete_book.
    replace (0 <=? row)%Z with false by (symmetry; apply Z.leb_gt; lia).
    reflexivity.
  - exists (filter (fun r' => negb (isbn_is k r')) t).
    pose proof (item_text_of_render t i r w C Hi) as Ek. rewrite Hk in Ek. simpl in Ek.
    split; [apply (window_delete_book_eq w t _ k L); [lia | exact Ek]|].
    split.
    + intros Hin. apply filter_In in Hin as [_ Hn].
      apply isbn_is_true in Hk. rewrite Hk in Hn. discriminate.
    + intros r' Hr'. rewrite filter_In. split; [tauto|].
      intros Hin. split; [assumption|].
      destruct (isbn_is k r') eqn:E; [|reflexivity].
      apply isbn_is_true in E. contradiction.
Qed.

Lemma window_delete_book_removes_the_current_record_witness :
  let dune := text_row "Dune" "Frank Herbert" "1234567890" "Sci-Fi" "1965" in
  let emma := text_row "Emma" "Jane Austen" "0987654321" "Novel" "1815" in
  let w := mk_window (mk_store (Some [dune; emma]) None)
                     (mk_form "" "" "" "" "") (render [dune; emma]) in
  (forall row, (row < 0)%Z -> LibraryManagementSystem.delete_book row w = (UiRet tt, w)) /\
  exists t',
    LibraryManagementSystem.delete_book (Z.of_nat 1) w
    = (UiRet tt, mk_window (mk_store (Some t') None) (inputs w) (render t')) /\
    ~ In emma t' /\
    (forall r', isbn r' <> VText "0987654321" -> (In r' t' <-> In r' [dune; emma])).
Proof.
  exact (window_delete_book_removes_the_current_record
           (mk_window
              (mk_store (Some [text_row "Dune" "Frank Herbert" "1234567890" "Sci-Fi" "1965";
                               text_row "Emma" "Jane Austen" "0987654321" "Novel" "1815"])
                        None)
              (mk_form "" "" "" "" "")
              (render [text_row "Dune" "Frank Herbert" "1234567890" "Sci-Fi" "1965";
                       text_row "Emma" "Jane Austen" "0987654321" "Novel" "1815"]))
           [text_row "Dune" "Frank Herbert" "1234567890" "Sci-Fi" "1965";
            text_row "Emma" "Jane Austen" "0987654321" "Novel" "1815"]
           1%nat (text_row "Emma" "Jane Austen" "0987654321" "Novel" "1815")
           "0987654321" eq_refl eq_refl eq_refl eq_refl).
Defined.

(** *** Searching *)

Lemma string_app_assoc (a b c : string) :
  String.append (String.append a b) c = String.append a (String.append b c).
Proof. induction a as [|x a IH]; simpl; [reflexivity | now rewrite IH]. Qed.

Lemma prefix_app (n h : string) :
  String.prefix n h = true <-> exists s, h = String.append n s.
Proof.
  revert h. induction n as [|x n IH]; intros h.
  - split; [intros _; now exists h | intros _; now destruct h].
  - destruct h as [|y h]; simpl;
      [split; [discriminate | intros [s E]; discriminate]|].
    destruct (ascii_dec x y) as [<- | Hxy].
    + rewrite IH. split; intros [s E]; exists s; [now rewrite E | now injection E].
    + split; [discriminate|]. intros [s E]. injection E as E _. now elim Hxy.
Qed.

Lemma contains_spec (n h : string) :
  contains n h = true <->
  exists p s, h = String.append p (String.append n s).
Proof.
  induction h as [|y h IH].
  - cbn [contains]. rewrite orb_false_r, prefix_app. split.
    + intros [s E]. now exists "", s.
    + intros (p & s & E). destruct p; [now exists s | discriminate].
  - cbn [contains]. rewrite orb_true_iff, IH, prefix_app. split.
    + intros [[s E] | (p & s & E)]; [now exists "", s|].
      exists (String y p), s. simpl. now rewrite E.
    + intros (p & s & E). destruct p as [|x p]; [left; now exists s|].
      right. injection E as _ E. now exists p, s.
Qed.

Lemma contains_trans (a b c : string) :
  contains a b = true -> contains b c = true -> contains a c = true.
Proof.
  rewrite !contains_spec. intros (p1 & s1 & ->) (p2 & s2 & ->).
  exists (String.append p2 p1), (String.append s1 s2).
  now rewrite !string_app_assoc.
Qed.

(** Typing on narrows the search: when the lowered text of one search
    occurs in the lowered text of another, as it does when the user adds
    characters at either end, every row the first search hides the second
    hides too. This holds whatever [str.lower] does to a text. *)
Theorem search_books_narrows
    (lower : string -> string) (search1 search2 : string) (w : window) :
  contains (lower search1) (lower search2) = true ->
  Forall2 (fun hidden1 hidden2 : bool => hidden1 = true -> hidden2 = true)
          (LibraryManagementSystem.search_books lower search1 w)
          (LibraryManagementSystem.search_books lower search2 w).
Proof.
  intros H. unfold LibraryManagementSystem.search_books.
  induction (cells w) as [|r rows IH]; simpl; constructor; [|assumption].
  rewrite !negb_true_iff. intros H1.
  destruct (existsb (fun text => contains (lower search2) (lower text)) r) eqn:H2;
    [|reflexivity].
  apply existsb_exists in H2 as (text & Hin & Hc).
  assert (existsb (fun text => contains (lower search1) (lower text)) r = true);
    [|congruence].
  apply existsb_exists. exists text. split; [assumption|].
  now apply (contains_trans _ (lower search2)).
Qed.

Lemma search_books_narrows_witness :
  Forall2 (fun hidden1 hidden2 : bool => hidden1 = true -> hidden2 = true)
          (LibraryManagementSystem.search_books ascii_lower "DUN"
             (mk_window empty_store (mk_form "" "" "" "" "")
                [["Dune"; "Frank Herbert"; "1234567890"; "Sci-Fi"; "1965"];
                 ["Emma"; "Jane Austen"; "0987654321"; "Novel"; "1815"]]))
          (LibraryManagementSystem.search_books ascii_lower "Dune"
             (mk_window empty_store (mk_form "" "" "" "" "")
                [["Dune"; "Frank Herbert"; "1234567890"; "Sci-Fi"; "1965"];
                 ["Emma"; "Jane Austen"; "0987654321"; "Novel"; "1815"]])).
Proof.
  exact (search_books_narrows ascii_lower "DUN" "Dune"
           (mk_window empty_store (mk_form "" "" "" "" "")
              [["Dune"; "Frank Herbert"; "1234567890"; "Sci-Fi"; "1965"];
               ["Emma"; "Jane Austen"; "0987654321"; "Novel"; "1815"]])
           eq_refl).
Defined.

(** An empty search hides nothing: in a table that shows the listing,
    [search_books] on the empty text leaves every row visible, provided
    lowering the empty text gives the empty text. *)
Theorem search_books_empty_text_shows_all (lower : string -> string) (w : window) :
  lower "" = "" ->
  shows_listing w ->
  LibraryManagementSystem.search_books lower "" w = map (fun _ => false) (cells w).
Proof.
  intros Hl (t & _ & C). unfold LibraryManagementSystem.search_books.
  rewrite Hl, C. unfold render. rewrite !map_map.
  apply map_ext. intros b. simpl.
  replace (contains "" (lower (py_str (title b)))) with true; [reflexivity|].
  symmetry. apply contains_spec. now exists "", (lower (py_str (title b))).
Qed.

Lemma search_books_empty_text_shows_all_witness :
  LibraryManagementSystem.search_books ascii_lower ""
    (mk_window (mk_store (Some [text_row "Dune" "Frank Herbert" "1234567890" "Sci-Fi" "1965"])
                         None)
               (mk_form "" "" "" "" "")
               (render [text_row "Dune" "Frank Herbert" "1234567890" "Sci-Fi" "1965"]))
  = map (fun _ => false)
        (cells (mk_window
                  (mk_store (Some [text_row "Dune" "Frank Herbert" "1234567890" "Sci-Fi"
                                            "1965"]) None)
                  (mk_form "" "" "" "" "")
                  (render [text_row "Dune" "Frank Herbert" "1234567890" "Sci-Fi" "1965"]))).
Proof.
  apply (search_books_empty_text_shows_all ascii_lower).
  - reflexivity.
  - exists [text_row "Dune" "Frank Herbert" "1234567890" "Sci-Fi" "1965"].
    split; reflexivity.
Defined.
